(** * Artemis Firmware Uploader: the window's upload logic and the upload core

    Part one ([Module Gui]) embeds [artemis_uploader/artemis_uploader.py]:
    the Qt widgets the window reads and writes are records, every slot of
    [MainWindow] is a function on the window state, and the operating
    system (serial ports, file system, settings) is an explicit environment.

    Part two ([Module Core]) is the packaging pipeline and the bootloader
    session that the window hands its jobs to. *)

From Stdlib Require Import ZArith String Ascii List Lia Bool.
From stdpp Require Import base decidable option list gmap strings.

Open Scope Z_scope.

(* ===================================================================== *)
(** ** Python values and Qt widgets                                       *)
(* ===================================================================== *)

(** The values that flow through combobox item data, [QSettings] and the
    job dictionary. *)
Inductive PyVal :=
| PyNone
| PyInt (z : Z)
| PyStr (s : string).

#[global] Instance PyVal_eq_dec : EqDecision PyVal.
Proof. solve_decision. Defined.

(** Python's [a == b] on these values. *)
Definition py_eq (a b : PyVal) : bool := bool_decide (a = b).

(** Python's [needle in hay] on [str]. *)
Fixpoint contains (needle hay : string) : bool :=
  if String.prefix needle hay then true
  else match hay with
       | EmptyString => false
       | String _ rest => contains needle rest
       end.

(** [QComboBox]: the rows (text, user data) and the current row, [-1] when
    there is none. *)
Record QComboBox := mkCombo {
  cb_items : list (string * PyVal);
  cb_index : Z
}.

Definition cb_new : QComboBox := mkCombo [] (-1).

(** [QComboBox.clear()] *)
Definition cb_clear (cb : QComboBox) : QComboBox := mkCombo [] (-1).

(** [QComboBox.addItem(text, userData)]: the row goes last; Qt makes the
    first row of a combobox that was empty the current one. *)
Definition cb_addItem (text : string) (data : PyVal) (cb : QComboBox) : QComboBox :=
  mkCombo (cb_items cb ++ [(text, data)])
          (match cb_items cb with [] => 0 | _ :: _ => cb_index cb end).

Definition cb_count (cb : QComboBox) : Z := Z.of_nat (length (cb_items cb)).

(** [QComboBox.setCurrentIndex(i)]: a row that does not exist clears the
    selection. *)
Definition cb_setCurrentIndex (i : Z) (cb : QComboBox) : QComboBox :=
  mkCombo (cb_items cb)
          (if (0 <=? i) && (i <? cb_count cb) then i else -1).

(** [QComboBox.currentData()]: [None] without a current row. *)
Definition cb_currentData (cb : QComboBox) : PyVal :=
  if cb_index cb <? 0 then PyNone
  else match cb_items cb !! Z.to_nat (cb_index cb) with
       | Some (_, d) => d
       | None => PyNone
       end.

Fixpoint findData_from (i : Z) (d : PyVal) (items : list (string * PyVal)) : Z :=
  match items with
  | [] => -1
  | (_, d') :: rest => if py_eq d' d then i else findData_from (i + 1) d rest
  end.

(** [QComboBox.findData(d)]: first row carrying [d], else [-1]. The data
    are compared as Python compares values of one type, a number with a
    number and a text with a text. Qt, which compares them as variants,
    also matches a text with the number it spells, which this model does
    not. *)
Definition cb_findData (d : PyVal) (cb : QComboBox) : Z :=
  findData_from 0 d (cb_items cb).

(** The user picks row [i] of the popup, which lists existing rows only. *)
Definition cb_activated (i : nat) (cb : QComboBox) : QComboBox :=
  if bool_decide (i < length (cb_items cb))%nat
  then cb_setCurrentIndex (Z.of_nat i) cb else cb.

(* ===================================================================== *)
(** ** The environment of the window                                      *)
(* ===================================================================== *)

(** One entry of [QSerialPortInfo.availablePorts()]. *)
Record PortInfo := mkPort {
  description : string;
  portName : string;
  systemLocation : string
}.

(** [gen_serial_ports()]: (description, portName, systemLocation). *)
Definition gen_serial_ports (ports : list PortInfo) : list (string * string * string) :=
  map (fun p => (description p, portName p, systemLocation p)) ports.

(** What the slots ask of the operating system at the moment they run. *)
Record Env := mkEnv {
  availablePorts : list PortInfo;
  os_path_exists : string -> bool;
  resource_path : string -> string
}.

(** [QSettings]: [value(key)] is [None] for a key never stored. *)
Record Settings := mkSettings {
  setting_port_name : option PyVal;
  setting_file_location : option string;
  setting_baud_rate : option PyVal;
  setting_artemis : option PyVal
}.

(** The actions registered with the background worker. *)
Inductive ActionId := AUxArtemisUploadFirware | AUxArtemisBurnBootloader.

#[global] Instance ActionId_eq_dec : EqDecision ActionId.
Proof. solve_decision. Defined.

(** [AxJob(action_id, {...})] *)
Record AxJob := mkJob {
  job_action : ActionId;
  job_args : gmap string PyVal
}.

Inductive Board := Artemis | Apollo3.

#[global] Instance Board_eq_dec : EqDecision Board.
Proof. solve_decision. Defined.

Module Gui.

(* ===================================================================== *)
(** ** MainWindow                                                         *)
(* ===================================================================== *)

Record MainWindow := mkWindow {
  appFile : string;
  load_address_blob : Z;
  load_address_image : Z;
  magic_num : Z;
  fileLocation_lineedit : string;
  port_combobox : QComboBox;
  baud_combobox : QComboBox;
  upload_btn_disabled : bool;
  updateBootloader_btn_disabled : bool;
  messages : string;
  statusBar : string;
  artemis : bool;
  apollo3 : bool;
  worker_jobs : list AxJob
}.

Definition set_fileLocation (t : string) (w : MainWindow) : MainWindow :=
  mkWindow (appFile w) (load_address_blob w) (load_address_image w) (magic_num w)
           t (port_combobox w) (baud_combobox w)
           (upload_btn_disabled w) (updateBootloader_btn_disabled w)
           (messages w) (statusBar w) (artemis w) (apollo3 w) (worker_jobs w).

Definition set_port_combobox (cb : QComboBox) (w : MainWindow) : MainWindow :=
  mkWindow (appFile w) (load_address_blob w) (load_address_image w) (magic_num w)
           (fileLocation_lineedit w) cb (baud_combobox w)
           (upload_btn_disabled w) (updateBootloader_btn_disabled w)
           (messages w) (statusBar w) (artemis w) (apollo3 w) (worker_jobs w).

Definition set_baud_combobox (cb : QComboBox) (w : MainWindow) : MainWindow :=
  mkWindow (appFile w) (load_address_blob w) (load_address_image w) (magic_num w)
           (fileLocation_lineedit w) (port_combobox w) cb
           (upload_btn_disabled w) (updateBootloader_btn_disabled w)
           (messages w) (statusBar w) (artemis w) (apollo3 w) (worker_jobs w).

Definition set_buttons (up bl : bool) (w : MainWindow) : MainWindow :=
  mkWindow (appFile w) (load_address_blob w) (load_address_image w) (magic_num w)
           (fileLocation_lineedit w) (port_combobox w) (baud_combobox w)
           up bl
           (messages w) (statusBar w) (artemis w) (apollo3 w) (worker_jobs w).

Definition set_messages (m : string) (w : MainWindow) : MainWindow :=
  mkWindow (appFile w) (load_address_blob w) (load_address_image w) (magic_num w)
           (fileLocation_lineedit w) (port_combobox w) (baud_combobox w)
           (upload_btn_disabled w) (updateBootloader_btn_disabled w)
           m (statusBar w) (artemis w) (apollo3 w) (worker_jobs w).

Definition set_statusBar (m : string) (w : MainWindow) : MainWindow :=
  mkWindow (appFile w) (load_address_blob w) (load_address_image w) (magic_num w)
           (fileLocation_lineedit w) (port_combobox w) (baud_combobox w)
           (upload_btn_disabled w) (updateBootloader_btn_disabled w)
           (messages w) m (artemis w) (apollo3 w) (worker_jobs w).

Definition set_board (a b : bool) (w : MainWindow) : MainWindow :=
  mkWindow (appFile w) (load_address_blob w) (load_address_image w) (magic_num w)
           (fileLocation_lineedit w) (port_combobox w) (baud_combobox w)
           (upload_btn_disabled w) (updateBootloader_btn_disabled w)
           (messages w) (statusBar w) a b (worker_jobs w).

(** [self._worker.add_job(job)]: the worker's queue, in submission order. *)
Definition add_job (j : AxJob) (w : MainWindow) : MainWindow :=
  mkWindow (appFile w) (load_address_blob w) (load_address_image w) (magic_num w)
           (fileLocation_lineedit w) (port_combobox w) (baud_combobox w)
           (upload_btn_disabled w) (updateBootloader_btn_disabled w)
           (messages w) (statusBar w) (artemis w) (apollo3 w) (worker_jobs w ++ [j]).

(** The [port] property: [self.port_combobox.currentData()]. *)
Definition port (w : MainWindow) : PyVal := cb_currentData (port_combobox w).

(** The [baudRate] property: [self.baud_combobox.currentData()]. *)
Definition baudRate (w : MainWindow) : PyVal := cb_currentData (baud_combobox w).

(** *** update_com_ports *)

(** The locals of the [for] loop of [update_com_ports]. *)
Record PortScan := mkScan {
  scan_combo : QComboBox;
  scan_index : Z;
  indexOfCH340 : Z;
  indexOfPrevious : Z
}.

Definition longname (desc name : string) : string :=
  desc +:+ " (" +:+ name +:+ ")".

(** One iteration of the loop body. *)
Definition scan_port (previousPort : PyVal) (s : PortScan)
    (entry : string * string * string) : PortScan :=
  let '(desc, name, sys) := entry in
  let ln := longname desc name in
  mkScan (cb_addItem ln (PyStr sys) (scan_combo s))
         (scan_index s + 1)
         (if contains "CH340" ln
          then (if indexOfCH340 s =? -1 then scan_index s else indexOfCH340 s)
          else indexOfCH340 s)
         (if py_eq (PyStr sys) previousPort then scan_index s else indexOfPrevious s).

Definition update_com_ports (ports : list PortInfo) (w : MainWindow) : MainWindow :=
  let previousPort := port w in
  let s := fold_left (scan_port previousPort) (gen_serial_ports ports)
                     (mkScan (cb_clear (port_combobox w)) 0 (-1) (-1)) in
  let cb1 := if -1 <? indexOfPrevious s
             then cb_setCurrentIndex (indexOfPrevious s) (scan_combo s)
             else scan_combo s in
  let cb2 := if -1 <? indexOfCH340 s
             then cb_setCurrentIndex (indexOfCH340 s) cb1
             else cb1 in
  set_port_combobox cb2 w.

(** *** verify_port *)

Fixpoint verify_port_loop (entries : list (string * string * string)) (p : PyVal) : bool :=
  match entries with
  | [] => false
  | (_, _, sys) :: rest => if py_eq (PyStr sys) p then true else verify_port_loop rest p
  end.

Definition verify_port (env : Env) (p : PyVal) : bool :=
  verify_port_loop (gen_serial_ports (availablePorts env)) p.

(** *** update_baud_rates *)

Definition update_baud_rates (w : MainWindow) : MainWindow :=
  set_baud_combobox
    (cb_addItem "921600" (PyInt 921600)
      (cb_addItem "460800" (PyInt 460800)
        (cb_addItem "115200" (PyInt 115200)
          (cb_clear (baud_combobox w))))) w.

(** *** log_message *)

(** The console text is a [string] with one [ascii] for each character and
    a line feed at each line break, as [toPlainText] gives it. This is the
    text of the program for ASCII characters, where a character is one
    byte in every encoding; the properties of the console below are stated
    for such texts. *)

Definition backspace : ascii := "008"%char.
Definition line_feed : ascii := "010"%char.
Definition carriage_return : ascii := "013"%char.

(** The text [insertPlainText] puts into the document for the text it is
    given: Qt starts a new line at a line feed, at a carriage return, and
    once at a carriage return that a line feed follows. *)
Fixpoint line_breaks (s : string) : string :=
  match s with
  | EmptyString => EmptyString
  | String c rest =>
      if Ascii.eqb c carriage_return then
        String line_feed
          match rest with
          | EmptyString => EmptyString
          | String c' rest' =>
              if Ascii.eqb c' line_feed then line_breaks rest' else line_breaks rest
          end
      else String c (line_breaks rest)
  end.

(** [QPlainTextEdit.insertPlainText(tmp)] with the cursor at the end. *)
Definition insertPlainText (tmp text : string) : string :=
  text +:+ line_breaks tmp.

(** [QTextCursor.deletePreviousChar()] with the cursor at the end: the last
    character goes, and nothing happens on an empty document. *)
Fixpoint deletePreviousChar (text : string) : string :=
  match text with
  | EmptyString => EmptyString
  | String c EmptyString => EmptyString
  | String c rest => String c (deletePreviousChar rest)
  end.

(** The [while len(tmp) > 2 and tmp.startswith('\b')] loop: what is left of
    [tmp], and the console text after the deletions. *)
Fixpoint strip_backspaces (tmp text : string) : string * string :=
  match tmp with
  | EmptyString => (tmp, text)
  | String c rest =>
      if (2 <? String.length tmp)%nat && Ascii.eqb c backspace
      then strip_backspaces rest (deletePreviousChar text)
      else (tmp, text)
  end.

Definition log_message (msg : string) (w : MainWindow) : MainWindow :=
  let '(tmp, text) := strip_backspaces msg (messages w) in
  set_messages (insertPlainText tmp text) w.

(** *** disable_interface *)

Definition disable_interface (bDisable : bool) (w : MainWindow) : MainWindow :=
  set_buttons bDisable bDisable w.

(** *** on_upload_btn_pressed *)

Definition upload_job (w : MainWindow) (fmwFile : string) (a : ActionId) : AxJob :=
  mkJob a (<["port" := port w]> (<["baud" := baudRate w]> (<["file" := PyStr fmwFile]> ∅))).

Definition on_upload_btn_pressed (env : Env) (w : MainWindow) : MainWindow :=
  if negb (verify_port env (port w)) then
    log_message "Port No Longer Available" w
  else
    let fmwFile := fileLocation_lineedit w in
    if negb (os_path_exists env fmwFile) then
      log_message ("The firmware file was not found: " +:+ fmwFile) w
    else
      let theJob := upload_job w fmwFile AUxArtemisUploadFirware in
      disable_interface true (add_job theJob w).

(** *** on_update_bootloader_btn_pressed *)

Definition on_update_bootloader_btn_pressed (env : Env) (w : MainWindow) : MainWindow :=
  if negb (verify_port env (port w)) then
    log_message "Port No Longer Available" w
  else
    let blFile := resource_path env (appFile w) in
    if negb (os_path_exists env blFile) then
      log_message ("The bootloader file was not found: " +:+ blFile) w
    else
      let theJob := upload_job w blFile AUxArtemisBurnBootloader in
      disable_interface true (add_job theJob w).

(** *** on_finished, on_port_combobox, on_browse_btn_pressed *)

Definition on_finished (status : Z) (w : MainWindow) : MainWindow :=
  let w1 := disable_interface false w in
  let msg := if status =? 0 then "successfully" else "with an error" in
  set_statusBar ("The upload process finished " +:+ msg) w1.

Definition on_port_combobox (env : Env) (w : MainWindow) : MainWindow :=
  update_com_ports (availablePorts env) (set_statusBar "Updating ports..." w).

(** [fileName] is what the file dialog returned, empty when cancelled. *)
Definition on_browse_btn_pressed (fileName : string) (w : MainWindow) : MainWindow :=
  let w1 := set_statusBar "Select firmware file for upload..." w in
  if bool_decide (fileName = "") then w1 else set_fileLocation fileName w1.

(** The two checkable actions sit in one exclusive [QActionGroup]:
    triggering one checks it and unchecks the other. *)
Definition on_board_triggered (b : Board) (w : MainWindow) : MainWindow :=
  match b with
  | Artemis => set_board true false w
  | Apollo3 => set_board false true w
  end.

(** *** _load_settings *)

Definition _load_settings (s : Settings) (w : MainWindow) : MainWindow :=
  let w1 :=
    match setting_port_name s with
    | Some port_name =>
        let index := cb_findData port_name (port_combobox w) in
        if -1 <? index
        then set_port_combobox (cb_setCurrentIndex index (port_combobox w)) w
        else w
    | None => w
    end in
  let w2 :=
    match setting_file_location s with
    | Some lastFile => set_fileLocation lastFile w1
    | None => w1
    end in
  let w3 :=
    match setting_baud_rate s with
    | Some baud =>
        let index := cb_findData baud (baud_combobox w2) in
        if -1 <? index
        then set_baud_combobox (cb_setCurrentIndex index (baud_combobox w2)) w2
        else w2
    | None => w2
    end in
  match setting_artemis s with
  | Some checked =>
      if py_eq checked (PyStr "True")
      then set_board true false w3
      else set_board false true w3
  | None => w3
  end.

(** *** __init__ *)

Definition app_title : string := "Artemis Firmware Uploader - v3.0.0".

Definition MainWindow_init (env : Env) (s : Settings) : MainWindow :=
  let w0 := mkWindow "artemis_svl.bin" 0xC000 0x20000 0xCB
                     "" cb_new cb_new false false "" "" false false [] in
  let w1 := update_com_ports (availablePorts env) w0 in
  let w2 := update_baud_rates w1 in
  let w3 := set_board true false w2 in
  let w4 := _load_settings s w3 in
  set_statusBar app_title (set_messages "" w4).

(** *** The event loop *)

(** What can happen to a window once it is shown. A disabled button does
    not emit [pressed]. *)
Inductive GuiEvent :=
| PortPopupShown (env : Env)
| PortActivated (i : nat)
| BaudActivated (i : nat)
| BoardTriggered (b : Board)
| Browsed (fileName : string)
| UploadPressed (env : Env)
| UpdateBootloaderPressed (env : Env)
| WorkerMessage (msg : string)
| WorkerFinished (status : Z).

Definition dispatch (e : GuiEvent) (w : MainWindow) : MainWindow :=
  match e with
  | PortPopupShown env => on_port_combobox env w
  | PortActivated i => set_port_combobox (cb_activated i (port_combobox w)) w
  | BaudActivated i => set_baud_combobox (cb_activated i (baud_combobox w)) w
  | BoardTriggered b => on_board_triggered b w
  | Browsed f => on_browse_btn_pressed f w
  | UploadPressed env =>
      if upload_btn_disabled w then w else on_upload_btn_pressed env w
  | UpdateBootloaderPressed env =>
      if updateBootloader_btn_disabled w then w else on_update_bootloader_btn_pressed env w
  | WorkerMessage msg => log_message msg w
  | WorkerFinished status => on_finished status w
  end.

(** The windows a run of the application can show. *)
Inductive reachable : MainWindow -> Prop :=
| reach_init env s : reachable (MainWindow_init env s)
| reach_event e w : reachable w -> reachable (dispatch e w).

(** The board family the menu shows as selected. *)
Definition selected_board (w : MainWindow) : Board :=
  if artemis w then Artemis else Apollo3.

(** What the window holds for packaging. *)
Definition packaging_params (w : MainWindow) : Z * Z * Z :=
  (magic_num w, load_address_image w, load_address_blob w).

End Gui.

(* ===================================================================== *)
(** ** The upload core                                                    *)
(* ===================================================================== *)

(** The window only submits jobs; the actions that run them
    ([au_act_artfrmw], [au_act_artasb], [au_worker]) are imported by
    [artemis_uploader.py] and are not part of the sources at hand. The
    core is therefore written down from its specification: the blob
    packager with its integrity codec, and the bootloader session over a
    serial transport. *)

Module Core.

Local Open Scope nat_scope.

Abbreviation byte := Byte.byte.

(** Modelled from the spec: the error taxonomy of the upload core (section
    7), which the missing action modules would raise. *)
Inductive UploadError :=
| InvalidImageError
| PortUnavailableError
| HandshakeTimeoutError
| FrameIntegrityError
| ProtocolTimeoutError
| UnexpectedResponseError
| IoError.

(** Modelled from the spec: the result of a fallible core operation. *)
Inductive Result (A : Type) :=
| Ok (a : A)
| Err (e : UploadError).
Arguments Ok {A} a.
Arguments Err {A} e.

(** Modelled from the spec: the OTA container of the missing packager:
    header fields and the padded payload (section 3). *)
Record OtaContainer := mkOta {
  ota_length : nat;
  magicNumber : Z;
  loadAddressImage : Z;
  ota_integrityCode : Z;
  ota_payload : list byte
}.

(** Modelled from the spec: the wired container of the missing packager:
    second-layer header and the OTA container bytes (section 3). *)
Record WiredContainer := mkWired {
  loadAddressBlob : Z;
  wired_length : nat;
  wired_integrityCode : Z;
  wired_payload : list byte
}.

Section Packager.

(** Modelled from the spec: [checksum] of the missing integrity codec
    (section 4.1); the algorithm is a wire contract the specification
    leaves open, so it is a parameter. *)
Variable checksum : list byte -> Z.

(** Modelled from the spec: the fixed layout of one header field of the
    missing packager; the specification gives no widths, so the encoding
    is a parameter. *)
Variable encode_field : Z -> list byte.

(** Modelled from the spec: the word boundary payloads are padded to. *)
Variable alignment : nat.

(** Modelled from the spec: the largest lengths the two length fields of
    the missing packager can hold. *)
Variable max_ota_length : nat.
Variable max_wired_length : nat.

(** Modelled from the spec: zero padding of a payload up to the next
    multiple of the alignment (section 4.2). *)
Definition padding (n : nat) : nat := (alignment - n mod alignment) mod alignment.

(** Modelled from the spec: the padded payload of the missing packager. *)
Definition pad (bytes : list byte) : list byte :=
  bytes ++ repeat Byte.x00 (padding (length bytes)).

(** Modelled from the spec: the serialized OTA container, header fields
    in the order of section 3, then the payload. *)
Definition serializeOta (c : OtaContainer) : list byte :=
  encode_field (Z.of_nat (ota_length c)) ++ encode_field (magicNumber c) ++
  encode_field (loadAddressImage c) ++ encode_field (ota_integrityCode c) ++
  ota_payload c.

(** Modelled from the spec: the OTA container with its integrity field
    set, [0] for the zeroed field of section 4.1. *)
Definition ota_with_integrity (code : Z) (c : OtaContainer) : OtaContainer :=
  mkOta (ota_length c) (magicNumber c) (loadAddressImage c) code (ota_payload c).

(** Modelled from the spec: [packageOta] of the missing packager
    (section 4.2): refuse an image too long for the length field, pad with
    zero bytes, and compute the integrity code over the serialized
    container with the integrity field zeroed (section 4.1). *)
Definition packageOta (image : list byte) (la_image magic : Z) : Result OtaContainer :=
  if max_ota_length <? length image then Err InvalidImageError
  else
    let payload := pad image in
    let c0 := mkOta (length payload) magic la_image 0%Z payload in
    Ok (ota_with_integrity (checksum (serializeOta c0)) c0).

(** Modelled from the spec: the serialized wired container. *)
Definition serializeWired (c : WiredContainer) : list byte :=
  encode_field (loadAddressBlob c) ++ encode_field (Z.of_nat (wired_length c)) ++
  encode_field (wired_integrityCode c) ++ wired_payload c.

(** Modelled from the spec: the wired container with its integrity
    field set. *)
Definition wired_with_integrity (code : Z) (c : WiredContainer) : WiredContainer :=
  mkWired (loadAddressBlob c) (wired_length c) code (wired_payload c).

(** Modelled from the spec: [packageWired] of the missing packager
    (section 4.2): serialize the OTA container first, check its size
    against the wired length field, then wrap it. *)
Definition packageWired (ota : OtaContainer) (la_blob : Z) : Result WiredContainer :=
  let bytes := serializeOta ota in
  if max_wired_length <? length bytes then Err InvalidImageError
  else
    let c0 := mkWired la_blob (length bytes) 0%Z bytes in
    Ok (wired_with_integrity (checksum (serializeWired c0)) c0).

(** Modelled from the spec: the packaging pipeline of the data flow
    (section 2): image to OTA container to wired blob bytes. *)
Definition packageBlob (image : list byte) (la_image magic la_blob : Z)
  : Result (list byte) :=
  match packageOta image la_image magic with
  | Err e => Err e
  | Ok ota =>
      match packageWired ota la_blob with
      | Err e => Err e
      | Ok wired => Ok (serializeWired wired)
      end
  end.

End Packager.

(** *** Serial transport and bootloader session *)

(** Modelled from the spec: the two timeout classes of the missing
    session (section 5). *)
Inductive TimeoutClass := DetectTimeout | ProtocolTimeout.

(** Modelled from the spec: what the device sends (section 6); [Malformed]
    stands for bytes that parse as none of the messages. *)
Inductive DeviceMsg :=
| VersionReport (version flags : Z)
| SendNextFrame
| ResendPreviousFrame
| TransferComplete
| Malformed.

(** Modelled from the spec: [readExact] of the missing transport (section
    4.3); a short read counts as a timeout. *)
Inductive ReadResult := Received (m : DeviceMsg) | TimedOut.

(** Modelled from the spec: what the host sends (section 6). *)
Inductive HostMsg :=
| TrainingChar
| BeginUpdate
| FrameMsg (frameLength : nat) (payload : list byte) (crc : Z).

(** Modelled from the spec: what an upload does that its caller or the
    wire can observe, in the order it happens. *)
Inductive Event :=
| EvOpen (port : string) (baud : Z)
| EvWrite (m : HostMsg)
| EvRead (tc : TimeoutClass) (r : ReadResult)
| EvProgress (sent total : nat)
| EvVersionMismatch (reported expected : Z)
| EvClose.

(** Modelled from the spec: the device behind the transport: its answer
    to the read with the given number (counted from 0) under the timeout
    the session passes. *)
Definition Device := nat -> TimeoutClass -> ReadResult.

(** Modelled from the spec: the byte stream frames are sliced from: its
    length, and the bytes at an offset. *)
Record ByteStream := mkStream {
  stream_length : nat;
  stream_slice : nat -> nat -> list byte
}.

(** Modelled from the spec: the wired blob bytes as the stream the
    missing session slices. *)
Definition stream_of (bytes : list byte) : ByteStream :=
  mkStream (length bytes) (fun off n => firstn n (skipn off bytes)).

(** Modelled from the spec: what the caller configures for one session. *)
Record SessionConfig := mkConfig {
  baud : Z;
  frameSize : nat;
  maxRetries : nat;
  expectedVersion : option Z
}.

(** Modelled from the spec: the states of the session's state machine
    (section 4.4). *)
Inductive Phase :=
| Idle
| BaudDetect
| VersionHandshake
| Transferring
| Completing
| Done
| Aborted (e : UploadError).

(** Modelled from the spec: SessionState (section 3), with the number of
    reads made and the events so far. *)
Record Session := mkSession {
  negotiatedBaudRate : option Z;
  bootloaderVersion : option Z;
  bytesSent : nat;
  currentFrameIndex : nat;
  retryCountForCurrentFrame : nat;
  phase : Phase;
  reads : nat;
  trace : list Event
}.

(** Modelled from the spec: the missing session before its first move:
    Idle, nothing sent, nothing read. *)
Definition session_start : Session :=
  mkSession None None 0 0 0 Idle 0 [].

Section BootloaderSession.

(** Modelled from the spec: the frame CRC of the missing integrity codec. *)
Variable frame_crc : list byte -> Z.

(** Modelled from the spec: the configuration, the wired blob and the
    device one run of the missing session works with. *)
Variable cfg : SessionConfig.
Variable stream : ByteStream.
Variable dev : Device.

(** Modelled from the spec: the payload length of frame [idx]: the fixed
    chunk size, less for the last frame. *)
Definition frame_length (idx : nat) : nat :=
  Nat.min (frameSize cfg) (stream_length stream - idx * frameSize cfg).

(** Modelled from the spec: frame [idx] on the wire: length, payload, CRC
    of the payload. *)
Definition frame_msg (idx : nat) : HostMsg :=
  let payload := stream_slice stream (idx * frameSize cfg) (frame_length idx) in
  FrameMsg (frame_length idx) payload (frame_crc payload).

(** Modelled from the spec: the session has written the current frame and
    the device has not acknowledged it yet: the bytes sent reach past the
    start of the frame. *)
Definition in_flight (s : Session) : bool :=
  currentFrameIndex s * frameSize cfg <? bytesSent s.

(** Modelled from the spec: the missing session aborts on what it has
    just read, keeping its counters. *)
Definition abort (e : UploadError) (evs : list Event) (s : Session) : Session :=
  mkSession (negotiatedBaudRate s) (bootloaderVersion s) (bytesSent s)
            (currentFrameIndex s) (retryCountForCurrentFrame s)
            (Aborted e) (S (reads s)) (trace s ++ evs).

(** Modelled from the spec: a request for the same frame again: one more
    retry, the whole upload aborted once the count exceeds the configured
    maximum, the frame written again otherwise. *)
Definition on_resend (r : ReadResult) (s : Session) : Session :=
  if in_flight s then
    let retry := S (retryCountForCurrentFrame s) in
    if maxRetries cfg <? retry then
      mkSession (negotiatedBaudRate s) (bootloaderVersion s) (bytesSent s)
                (currentFrameIndex s) retry
                (Aborted FrameIntegrityError) (S (reads s))
                (trace s ++ [EvRead ProtocolTimeout r])
    else
      mkSession (negotiatedBaudRate s) (bootloaderVersion s) (bytesSent s)
                (currentFrameIndex s) retry
                (phase s) (S (reads s))
                (trace s ++ [EvRead ProtocolTimeout r; EvWrite (frame_msg (currentFrameIndex s))])
  else abort UnexpectedResponseError [EvRead ProtocolTimeout r] s.

(** Modelled from the spec: the progress event of the missing session
    for the frame just acknowledged, if there is one. *)
Definition acknowledged (s : Session) : list Event :=
  if in_flight s then [EvProgress (bytesSent s) (stream_length stream)] else [].

(** Modelled from the spec: one move of the session's state machine
    (section 4.4). The transport is taken to deliver every write, and
    cancellation is left out. The retry rule is stated for every frame, so
    a request to resend the final frame falls under it as well. *)
Definition session_step (s : Session) : Session :=
  match phase s with
  | Idle =>
      mkSession (negotiatedBaudRate s) (bootloaderVersion s) (bytesSent s)
                (currentFrameIndex s) (retryCountForCurrentFrame s)
                BaudDetect (reads s) (trace s ++ [EvWrite TrainingChar])
  | BaudDetect =>
      let r := dev (reads s) DetectTimeout in
      match r with
      | Received (VersionReport v _) =>
          mkSession (Some (baud cfg)) (Some v) (bytesSent s)
                    (currentFrameIndex s) (retryCountForCurrentFrame s)
                    VersionHandshake (S (reads s)) (trace s ++ [EvRead DetectTimeout r])
      | _ => abort HandshakeTimeoutError [EvRead DetectTimeout r] s
      end
  | VersionHandshake =>
      let mismatch :=
        match bootloaderVersion s, expectedVersion cfg with
        | Some v, Some e => if (v =? e)%Z then [] else [EvVersionMismatch v e]
        | _, _ => []
        end in
      mkSession (negotiatedBaudRate s) (bootloaderVersion s) (bytesSent s)
                (currentFrameIndex s) (retryCountForCurrentFrame s)
                (if 0 <? stream_length stream then Transferring else Completing)
                (reads s) (trace s ++ mismatch ++ [EvWrite BeginUpdate])
  | Transferring =>
      let r := dev (reads s) ProtocolTimeout in
      match r with
      | TimedOut => abort ProtocolTimeoutError [EvRead ProtocolTimeout r] s
      | Received SendNextFrame =>
          let idx := if in_flight s then S (currentFrameIndex s) else currentFrameIndex s in
          let sent := bytesSent s + frame_length idx in
          mkSession (negotiatedBaudRate s) (bootloaderVersion s) sent idx 0
                    (if sent <? stream_length stream then Transferring else Completing)
                    (S (reads s))
                    (trace s ++ [EvRead ProtocolTimeout r] ++ acknowledged s ++
                     [EvWrite (frame_msg idx)])
      | Received ResendPreviousFrame => on_resend r s
      | Received _ => abort UnexpectedResponseError [EvRead ProtocolTimeout r] s
      end
  | Completing =>
      let r := dev (reads s) ProtocolTimeout in
      match r with
      | TimedOut => abort ProtocolTimeoutError [EvRead ProtocolTimeout r] s
      | Received TransferComplete =>
          mkSession (negotiatedBaudRate s) (bootloaderVersion s) (bytesSent s)
                    (currentFrameIndex s) (retryCountForCurrentFrame s)
                    Done (S (reads s))
                    (trace s ++ [EvRead ProtocolTimeout r] ++ acknowledged s)
      | Received ResendPreviousFrame => on_resend r s
      | Received _ => abort UnexpectedResponseError [EvRead ProtocolTimeout r] s
      end
  | Done => s
  | Aborted _ => s
  end.

(** Modelled from the spec: the missing session after [fuel] moves;
    [Done] and [Aborted] do not move. *)
Fixpoint run (fuel : nat) (s : Session) : Session :=
  match fuel with
  | 0 => s
  | S fuel' => run fuel' (session_step s)
  end.

(** Modelled from the spec: the terminal states of the missing session. *)
Definition terminal (p : Phase) : bool :=
  match p with
  | Done | Aborted _ => true
  | _ => false
  end.

End BootloaderSession.

(** *** runUploadSession *)

(** Modelled from the spec: the configuration of [runUploadSession]
    (section 6). *)
Record UploadConfig := mkUpload {
  upload_port : string;
  upload_baud : Z;
  imagePath : string;
  boardFamily : Board
}.

(** Modelled from the spec: what an upload finds around it: the image
    files, the ports that can be opened, and the device on the line. *)
Record World := mkWorld {
  read_image : string -> option (list byte);
  port_opens : string -> bool;
  device : Device
}.

Section UploadSession.

(** Modelled from the spec: the parameters of the missing packager and
    integrity codec, as in the sections above. *)
Variable checksum : list byte -> Z.
Variable encode_field : Z -> list byte.
Variable alignment : nat.
Variable max_ota_length : nat.
Variable max_wired_length : nat.
Variable frame_crc : list byte -> Z.

(** Modelled from the spec: magic number, image load address and blob load
    address of a board family; the specification names no values. *)
Variable board_params : Board -> Z * Z * Z.

(** Modelled from the spec: the fixed chunk size and the retry limit. *)
Variable frame_size : nat.
Variable max_retries : nat.

(** Modelled from the spec: [runUploadSession] (section 6) along the data
    flow of section 2: read the image, package it, only then open the
    transport and run the session over the wired blob. [None] when [fuel]
    moves do not bring the session to [Done] or [Aborted]. *)
Definition runUploadSession (fuel : nat) (config : UploadConfig) (world : World)
  : option (Result nat * list Event) :=
  match read_image world (imagePath config) with
  | None => Some (Err InvalidImageError, [])
  | Some image =>
      let '(magic, la_image, la_blob) := board_params (boardFamily config) in
      match packageBlob checksum encode_field alignment max_ota_length max_wired_length
                        image la_image magic la_blob with
      | Err e => Some (Err e, [])
      | Ok blob =>
          if port_opens world (upload_port config) then
            let scfg := mkConfig (upload_baud config) frame_size max_retries None in
            let s := run frame_crc scfg (stream_of blob) (device world) fuel session_start in
            let events := [EvOpen (upload_port config) (upload_baud config)] ++
                          trace s ++ [EvClose] in
            match phase s with
            | Done => Some (Ok (bytesSent s), events)
            | Aborted e => Some (Err e, events)
            | _ => None
            end
          else Some (Err PortUnavailableError, [])
      end
  end.

End UploadSession.

End Core.

(* ===================================================================== *)
(** ** More of the window: settings, dark mode, event sequences           *)
(* ===================================================================== *)

Module GuiExtra.
Import Gui.

(** *** QSettings *)

(** The keys the window stores its settings under. *)
Definition SETTING_PORT_NAME : string := "port_name".
Definition SETTING_FILE_LOCATION : string := "message".
Definition SETTING_BAUD_RATE : string := "115200".
Definition SETTING_ARTEMIS : string := "True".

(** [QSettings.value(key)] on a store that returns values as they were
    written: [None] for a key never stored, and a stored [None] is [None]
    again. *)
Definition settings_value (store : gmap string PyVal) (key : string) : option PyVal :=
  match store !! key with
  | Some PyNone => None
  | Some v => Some v
  | None => None
  end.

(** The four values [_load_settings] reads. The file entry is text: the
    window stores nothing else under that key. *)
Definition read_settings (store : gmap string PyVal) : Settings :=
  mkSettings (settings_value store SETTING_PORT_NAME)
             (match settings_value store SETTING_FILE_LOCATION with
              | Some (PyStr f) => Some f
              | _ => None
              end)
             (settings_value store SETTING_BAUD_RATE)
             (settings_value store SETTING_ARTEMIS).

(** [_save_settings]: four [setValue] calls, in the order of the source. *)
Definition _save_settings (w : MainWindow) (store : gmap string PyVal)
  : gmap string PyVal :=
  let s1 := <[SETTING_PORT_NAME := port w]> store in
  let s2 := <[SETTING_FILE_LOCATION := PyStr (fileLocation_lineedit w)]> s1 in
  let s3 := <[SETTING_BAUD_RATE := baudRate w]> s2 in
  let checkedStr := if artemis w then "True" else "False" in
  <[SETTING_ARTEMIS := PyStr checkedStr]> s3.

(** *** ux_is_darkmode *)

(** What [ux_is_darkmode] asks of the machine when it runs:
    [platform.system()] and, on macOS, [darkdetect.isDark()], which
    answers a boolean there. *)
Record Platform := mkPlatform {
  system : string;
  isDark : bool
}.

(** [ux_is_darkmode]: the value returned ([None] is Python's [None]) and
    the module global [_is_darkmode] after the call. The Linux branch
    assigns to the name [_is_darkmod], a local of the function, so the
    global stays as it was. *)
Definition ux_is_darkmode (pf : Platform) (_is_darkmode : option bool)
  : option bool * option bool :=
  match _is_darkmode with
  | Some b => (Some b, _is_darkmode)
  | None =>
      if bool_decide (system pf = "Darwin") then (Some (isDark pf), Some (isDark pf))
      else if bool_decide (system pf = "Windows") then (Some false, Some false)
      else if bool_decide (system pf = "Linux") then (None, None)
      else (Some false, Some false)
  end.


(** Python's truth value of what [ux_is_darkmode] returns. *)
Definition truthy (v : option bool) : bool :=
  match v with
  | Some b => b
  | None => false
  end.

(** The two uses in [__init__]: the colour of the console text, then the
    logo file, each with its own call; the machine may answer differently
    at the second call. *)
Definition console_and_logo (pf1 pf2 : Platform) (_is_darkmode : option bool)
  : string * string * option bool :=
  let '(dark1, g1) := ux_is_darkmode pf1 _is_darkmode in
  let color := if truthy dark1 then "C0C0C0" else "424242" in
  let '(dark2, g2) := ux_is_darkmode pf2 g1 in
  let icon := if truthy dark2 then "artemis-icon.png" else "artemis-icon-blk.png" in
  (color, icon, g2).

(** *** Sequences of events *)

(** The window after the events of [evs], oldest first. *)
Definition run_events (evs : list GuiEvent) (w : MainWindow) : MainWindow :=
  fold_left (fun w e => dispatch e w) evs w.

(** How often the worker reported a job as finished. *)
Fixpoint finished_count (evs : list GuiEvent) : nat :=
  match evs with
  | [] => 0
  | WorkerFinished _ :: rest => S (finished_count rest)
  | _ :: rest => finished_count rest
  end.

End GuiExtra.

(* ===================================================================== *)
(** ** Properties of the window                                           *)
(* ===================================================================== *)

Module GuiProofs.
Import Gui.

(** The combobox row [update_com_ports] adds for a port. *)
Definition port_row (p : PortInfo) : string * PyVal :=
  (longname (description p) (portName p), PyStr (systemLocation p)).

(** The test of the loop body: the description-plus-name string holds
    the text CH340. *)
Definition has_CH340 (p : PortInfo) : bool :=
  contains "CH340" (longname (description p) (portName p)).

Definition scan_all (prev : PyVal) (ports : list PortInfo) (s : PortScan) : PortScan :=
  fold_left (scan_port prev) (gen_serial_ports ports) s.

Lemma scan_all_cons prev p ports s :
  scan_all prev (p :: ports) s =
  scan_all prev ports (scan_port prev s (description p, portName p, systemLocation p)).
Proof. reflexivity. Qed.

Lemma scan_items_final prev ports s :
  cb_items (scan_combo (scan_all prev ports s)) =
  cb_items (scan_combo s) ++ map port_row ports.
Proof.
  revert s. induction ports as [|p ports IH]; intros s.
  - cbn. now rewrite app_nil_r.
  - rewrite scan_all_cons, IH. cbn. now rewrite <- app_assoc.
Qed.

Lemma scan_CH340_kept prev ports s :
  indexOfCH340 s <> -1 ->
  indexOfCH340 (scan_all prev ports s) = indexOfCH340 s.
Proof.
  revert s. induction ports as [|p ports IH]; intros s Hs; [reflexivity|].
  rewrite scan_all_cons.
  assert (Hstep : indexOfCH340 (scan_port prev s (description p, portName p, systemLocation p))
                  = indexOfCH340 s).
  { cbn. destruct (contains _ _); [|reflexivity].
    destruct (Z.eqb_spec (indexOfCH340 s) (-1)); [contradiction|reflexivity]. }
  rewrite IH; rewrite Hstep; auto.
Qed.

Lemma scan_CH340_none prev ports s :
  (forall q, q ∈ ports -> has_CH340 q = false) ->
  indexOfCH340 (scan_all prev ports s) = indexOfCH340 s.
Proof.
  revert s. induction ports as [|p ports IH]; intros s Hall; [reflexivity|].
  rewrite scan_all_cons, IH.
  - cbn. fold (has_CH340 p). rewrite (Hall p); [reflexivity | apply list_elem_of_here].
  - intros q Hq. apply Hall. now apply list_elem_of_further.
Qed.

Lemma scan_CH340_first prev ports s i p :
  indexOfCH340 s = -1 -> 0 <= scan_index s ->
  ports !! i = Some p -> has_CH340 p = true ->
  (forall j q, (j < i)%nat -> ports !! j = Some q -> has_CH340 q = false) ->
  indexOfCH340 (scan_all prev ports s) = scan_index s + Z.of_nat i.
Proof.
  revert s i. induction ports as [|p0 ports IH]; intros s i Hs Hidx Hi Hp Hbefore.
  - discriminate.
  - rewrite scan_all_cons. destruct i as [|i].
    + cbn in Hi. injection Hi as ->.
      rewrite scan_CH340_kept.
      * cbn. fold (has_CH340 p). rewrite Hp, Hs. cbn. lia.
      * cbn. fold (has_CH340 p). rewrite Hp, Hs. cbn. lia.
    + cbn in Hi.
      assert (H0 : has_CH340 p0 = false) by (apply (Hbefore 0%nat); [lia | reflexivity]).
      rewrite (IH _ i).
      * cbn [scan_port scan_index]. lia.
      * cbn. fold (has_CH340 p0). now rewrite H0.
      * cbn [scan_port scan_index]. lia.
      * exact Hi.
      * exact Hp.
      * intros j q Hj Hq. apply (Hbefore (S j)); [lia | exact Hq].
Qed.

(** [indexOfPrevious] ends on a row whose data is the previous port, or
    stays as it was when no port has that location. *)
Lemma scan_previous prev ports s :
  0 <= scan_index s ->
  (indexOfPrevious (scan_all prev ports s) = indexOfPrevious s /\
   forall q, q ∈ ports -> PyStr (systemLocation q) <> prev)
  \/ (exists i q, ports !! i = Some q /\ PyStr (systemLocation q) = prev /\
        indexOfPrevious (scan_all prev ports s) = scan_index s + Z.of_nat i).
Proof.
  revert s. induction ports as [|p ports IH]; intros s Hidx.
  - left. split; [reflexivity|]. intros q Hq. inversion Hq.
  - rewrite scan_all_cons.
    set (s1 := scan_port prev s (description p, portName p, systemLocation p)).
    assert (H1 : 0 <= scan_index s1) by (cbn; lia).
    destruct (IH s1 H1) as [[Hsame Hnone] | (i & q & Hi & Hq & Hfin)].
    + unfold py_eq in *. destruct (decide (PyStr (systemLocation p) = prev)) as [Heq|Hne].
      * right. exists 0%nat, p. split; [reflexivity|]. split; [exact Heq|].
        rewrite Hsame. cbn. unfold py_eq. rewrite bool_decide_eq_true_2 by exact Heq. lia.
      * left. split.
        -- rewrite Hsame. cbn. unfold py_eq. now rewrite bool_decide_eq_false_2 by exact Hne.
        -- intros q Hq. apply elem_of_cons in Hq as [-> | Hq]; auto.
    + right. exists (S i), q. split; [exact Hi|]. split; [exact Hq|].
      rewrite Hfin. cbn [s1 scan_port scan_index]. lia.
Qed.

Lemma currentData_setCurrentIndex (cb : QComboBox) (i : nat) t d :
  cb_items cb !! i = Some (t, d) ->
  cb_index (cb_setCurrentIndex (Z.of_nat i) cb) = Z.of_nat i /\
  cb_currentData (cb_setCurrentIndex (Z.of_nat i) cb) = d.
Proof.
  intros Hi. pose proof (lookup_lt_Some _ _ _ Hi) as Hlt.
  unfold cb_setCurrentIndex, cb_currentData, cb_count. cbn.
  replace ((0 <=? Z.of_nat i) && (Z.of_nat i <? Z.of_nat (length (cb_items cb)))) with true.
  - split; [reflexivity|].
    replace (Z.of_nat i <? 0) with false by (symmetry; apply Z.ltb_ge; lia).
    now rewrite Nat2Z.id, Hi.
  - symmetry. apply andb_true_iff. split; [apply Z.leb_le | apply Z.ltb_lt]; lia.
Qed.

Lemma port_row_lookup (ports : list PortInfo) i p :
  ports !! i = Some p -> map port_row ports !! i = Some (port_row p).
Proof.
  revert i. induction ports as [|q ports IH]; intros [|i] H; try discriminate.
  - cbn in *. now injection H as ->.
  - cbn in *. now apply IH.
Qed.

Lemma setCurrentIndex_items i cb : cb_items (cb_setCurrentIndex i cb) = cb_items cb.
Proof. reflexivity. Qed.

Lemma port_unfold w : port w = cb_currentData (port_combobox w).
Proof. reflexivity. Qed.

Lemma update_com_ports_combobox ports w :
  port_combobox (update_com_ports ports w) =
  let s := scan_all (port w) ports (mkScan (cb_clear (port_combobox w)) 0 (-1) (-1)) in
  let cb1 := if -1 <? indexOfPrevious s
             then cb_setCurrentIndex (indexOfPrevious s) (scan_combo s)
             else scan_combo s in
  if -1 <? indexOfCH340 s then cb_setCurrentIndex (indexOfCH340 s) cb1 else cb1.
Proof. reflexivity. Qed.

(** C10. After [update_com_ports], when some available port's
    description-plus-name string contains CH340 the current row is the
    first such port, whatever port was selected before; when none does and
    the port selected before is still available, that port is selected
    again. *)
Theorem update_com_ports_prefers_CH340 (ports : list PortInfo) (w : MainWindow) :
  (forall i p, ports !! i = Some p -> has_CH340 p = true ->
     (forall j q, (j < i)%nat -> ports !! j = Some q -> has_CH340 q = false) ->
     cb_index (port_combobox (update_com_ports ports w)) = Z.of_nat i /\
     port (update_com_ports ports w) = PyStr (systemLocation p))
  /\
  ((forall q, q ∈ ports -> has_CH340 q = false) ->
   forall q, q ∈ ports -> port w = PyStr (systemLocation q) ->
     port (update_com_ports ports w) = port w).
Proof.
  rewrite !(port_unfold (update_com_ports ports w)), update_com_ports_combobox.
  cbv zeta.
  set (s0 := mkScan (cb_clear (port_combobox w)) 0 (-1) (-1)).
  set (s := scan_all (port w) ports s0).
  assert (Hitems : cb_items (scan_combo s) = map port_row ports)
    by (subst s; now rewrite scan_items_final).
  split.
  - intros i p Hi Hp Hfirst.
    assert (Hch : indexOfCH340 s = Z.of_nat i).
    { subst s. rewrite (scan_CH340_first _ _ _ i p); cbn; auto; lia. }
    rewrite Hch.
    replace (-1 <? Z.of_nat i) with true by (symmetry; apply Z.ltb_lt; lia).
    apply (currentData_setCurrentIndex _ i (longname (description p) (portName p))).
    destruct (-1 <? indexOfPrevious s); rewrite ?setCurrentIndex_items, Hitems;
      now apply port_row_lookup.
  - intros Hnone q Hq Hprev.
    assert (Hch : indexOfCH340 s = -1).
    { subst s. now rewrite scan_CH340_none. }
    rewrite Hch. cbn [Z.ltb Z.compare].
    destruct (scan_previous (port w) ports s0) as [[_ Habsent] | (i & q' & Hi & Hq' & Hfin)].
    + cbn. lia.
    + exfalso. apply (Habsent q Hq). now rewrite Hprev.
    + fold s in Hfin. cbn [s0 scan_index] in Hfin. rewrite Hfin.
      replace (-1 <? 0 + Z.of_nat i) with true by (symmetry; apply Z.ltb_lt; lia).
      rewrite Z.add_0_l, <- Hq'.
      apply (currentData_setCurrentIndex _ i (longname (description q') (portName q'))).
      rewrite Hitems. now apply port_row_lookup.
Qed.

Definition demo_ports : list PortInfo :=
  [ mkPort "USB Serial Port" "COM3" "COM3";
    mkPort "USB-SERIAL CH340" "COM7" "COM7";
    mkPort "USB-SERIAL CH340" "COM9" "COM9" ].

Definition demo_env : Env :=
  mkEnv demo_ports (fun f => bool_decide (f = "fw.bin")) (fun f => "resource/" +:+ f).

Definition no_settings : Settings := mkSettings None None None None.

(** A window whose current port is COM3, the one port without CH340. *)
Definition demo_window : MainWindow :=
  dispatch (PortActivated 0) (MainWindow_init demo_env no_settings).

(** Two ports, neither a CH340. *)
Definition plain_ports : list PortInfo :=
  [ mkPort "USB Serial Port" "COM3" "COM3";
    mkPort "FTDI Serial" "COM4" "COM4" ].

(** A window on those ports with COM4 selected. *)
Definition plain_window : MainWindow :=
  dispatch (PortActivated 1)
    (MainWindow_init (mkEnv plain_ports (fun _ => false) (fun f => f)) no_settings).

Lemma update_com_ports_prefers_CH340_witness :
  (port demo_window = PyStr "COM3" /\
   cb_index (port_combobox (update_com_ports demo_ports demo_window)) = 1 /\
   port (update_com_ports demo_ports demo_window) = PyStr "COM7") /\
  (port plain_window = PyStr "COM4" /\
   port (update_com_ports plain_ports plain_window) = port plain_window).
Proof.
  split.
  - split; [reflexivity|].
    apply (proj1 (update_com_ports_prefers_CH340 demo_ports demo_window)
                 1%nat (mkPort "USB-SERIAL CH340" "COM7" "COM7")).
    + reflexivity.
    + reflexivity.
    + intros [|j] q Hj Hq; [|lia]. cbn in Hq. injection Hq as <-. reflexivity.
  - split; [reflexivity|].
    apply (proj2 (update_com_ports_prefers_CH340 plain_ports plain_window))
      with (q := mkPort "FTDI Serial" "COM4" "COM4").
    + intros q Hq. apply elem_of_cons in Hq as [-> | Hq]; [reflexivity|].
      apply elem_of_cons in Hq as [-> | Hq]; [reflexivity|]. inversion Hq.
    + apply list_elem_of_further, list_elem_of_here.
    + reflexivity.
Defined.

(** *** The upload button *)

(** [verify_port] answers whether the port is the system location of an
    available port. *)
Lemma verify_port_spec env (p : PyVal) :
  verify_port env p = true <->
  exists q, q ∈ availablePorts env /\ p = PyStr (systemLocation q).
Proof.
  unfold verify_port. induction (availablePorts env) as [|q0 ports IH]; cbn.
  - split; [discriminate|]. intros (q & Hq & _). inversion Hq.
  - unfold py_eq. case_bool_decide as Heq.
    + split; [|reflexivity]. intros _. exists q0. split; [apply list_elem_of_here | now symmetry].
    + rewrite IH. split.
      * intros (q & Hq & Hp). exists q. split; [now apply list_elem_of_further | exact Hp].
      * intros (q & Hq & Hp). apply elem_of_cons in Hq as [-> | Hq];
          [now symmetry in Hp | exists q; now split].
Qed.

(** A message that does not start with a backspace is inserted whole. *)
Lemma log_message_plain c rest w :
  Ascii.eqb c backspace = false ->
  log_message (String c rest) w =
    set_messages (messages w +:+ line_breaks (String c rest)) w.
Proof.
  intros Hc. unfold log_message. cbn [strip_backspaces].
  now rewrite Hc, andb_false_r.
Qed.

(** What the slot asks for before it submits a job. *)
Definition upload_ready (env : Env) (w : MainWindow) : Prop :=
  (exists q, q ∈ availablePorts env /\ port w = PyStr (systemLocation q)) /\
  os_path_exists env (fileLocation_lineedit w) = true.


(** A window with COM3 selected and a firmware file chosen that exists. *)
Definition ready_window : MainWindow := dispatch (Browsed "fw.bin") demo_window.



(** *** What every reachable window satisfies *)

Definition allowed_bauds : list Z := [115200; 460800; 921600].

Definition baud_rows : list (string * PyVal) :=
  [("115200", PyInt 115200); ("460800", PyInt 460800); ("921600", PyInt 921600)].

Definition allowed_baud (v : PyVal) : Prop :=
  exists b, v = PyInt b /\ b ∈ allowed_bauds.

Definition job_keys : gset string := {[ "port"; "baud"; "file" ]}.

Record window_inv (w : MainWindow) : Prop := mkInv {
  inv_params : packaging_params w = (0xCB, 0x20000, 0xC000);
  inv_baud_rows : cb_items (baud_combobox w) = baud_rows;
  inv_baud_index : 0 <= cb_index (baud_combobox w) < 3;
  inv_jobs : Forall (fun j => dom (job_args j) = job_keys /\
                              (exists v, job_args j !! "baud" = Some v /\ allowed_baud v))
                    (worker_jobs w)
}.

Lemma baudRate_allowed w :
  cb_items (baud_combobox w) = baud_rows ->
  0 <= cb_index (baud_combobox w) < 3 ->
  allowed_baud (baudRate w).
Proof.
  intros Hrows Hidx. unfold baudRate, cb_currentData. rewrite Hrows.
  assert (Hcases : cb_index (baud_combobox w) = 0 \/ cb_index (baud_combobox w) = 1 \/
                   cb_index (baud_combobox w) = 2) by lia.
  unfold allowed_baud, allowed_bauds.
  destruct Hcases as [-> | [-> | ->]]; cbn; eexists; (split; [reflexivity|]);
    repeat constructor.
Qed.

Lemma upload_job_dom w f a : dom (job_args (upload_job w f a)) = job_keys.
Proof.
  unfold upload_job, job_keys. cbn [job_args].
  rewrite !dom_insert_L, dom_empty_L. set_solver.
Qed.

Lemma upload_job_baud w f a : job_args (upload_job w f a) !! "baud" = Some (baudRate w).
Proof. unfold upload_job. cbn [job_args]. now simplify_map_eq. Qed.

Lemma inv_log_message msg w : window_inv w -> window_inv (log_message msg w).
Proof.
  intros [? ? ? ?]. unfold log_message.
  destruct (strip_backspaces msg (messages w)). now constructor.
Qed.

Lemma inv_submit w f a :
  window_inv w -> window_inv (disable_interface true (add_job (upload_job w f a) w)).
Proof.
  intros [Hp Hr Hi Hj]. constructor; try assumption. cbn.
  apply Forall_app. split; [exact Hj|]. constructor; [|constructor].
  split; [apply upload_job_dom|].
  exists (baudRate w). split; [apply upload_job_baud | now apply baudRate_allowed].
Qed.

Lemma inv_activated_index i (cb : QComboBox) :
  cb_items cb = baud_rows -> 0 <= cb_index cb < 3 ->
  cb_items (cb_activated i cb) = baud_rows /\ 0 <= cb_index (cb_activated i cb) < 3.
Proof.
  intros Hrows Hidx. unfold cb_activated. rewrite Hrows.
  case_bool_decide as Hi; [|now split].
  split; [exact Hrows|]. unfold cb_setCurrentIndex, cb_count. rewrite Hrows.
  cbn in Hi. cbn [cb_index length baud_rows].
  replace ((0 <=? Z.of_nat i) && (Z.of_nat i <? Z.of_nat 3)) with true; [lia|].
  symmetry. apply andb_true_iff. split; [apply Z.leb_le | apply Z.ltb_lt]; lia.
Qed.

Lemma inv_dispatch e w : window_inv w -> window_inv (dispatch e w).
Proof.
  intros Hw. pose proof Hw as [Hp Hr Hi Hj].
  destruct e as [env|i|i|b|f|env|env|msg|status]; cbn [dispatch].
  - now constructor.
  - now constructor.
  - destruct (inv_activated_index i _ Hr Hi). now constructor.
  - destruct b; now constructor.
  - unfold on_browse_btn_pressed. case_bool_decide; now constructor.
  - destruct (upload_btn_disabled w); [exact Hw|].
    unfold on_upload_btn_pressed.
    destruct (negb (verify_port env (port w))); [now apply inv_log_message|].
    destruct (negb (os_path_exists env (fileLocation_lineedit w)));
      [now apply inv_log_message | now apply inv_submit].
  - destruct (updateBootloader_btn_disabled w); [exact Hw|].
    unfold on_update_bootloader_btn_pressed.
    destruct (negb (verify_port env (port w))); [now apply inv_log_message|].
    destruct (negb (os_path_exists env (resource_path env (appFile w))));
      [now apply inv_log_message | now apply inv_submit].
  - now apply inv_log_message.
  - now constructor.
Qed.

Lemma findData_baud_rows (d : PyVal) :
  let i := findData_from 0 d baud_rows in i = -1 \/ 0 <= i < 3.
Proof.
  cbn. repeat (destruct (py_eq _ d); [right; lia|]). now left.
Qed.

Lemma inv_load_settings s w : window_inv w -> window_inv (_load_settings s w).
Proof.
  intros [Hp Hr Hi Hj]. unfold _load_settings.
  set (w1 := match setting_port_name s with Some _ => _ | None => w end).
  assert (H1 : window_inv w1).
  { subst w1. destruct (setting_port_name s); [|now constructor].
    destruct (-1 <? _); now constructor. }
  set (w2 := match setting_file_location s with Some _ => _ | None => w1 end).
  assert (H2 : window_inv w2).
  { subst w2. destruct H1. destruct (setting_file_location s); now constructor. }
  set (w3 := match setting_baud_rate s with Some _ => _ | None => w2 end).
  assert (H3 : window_inv w3).
  { subst w3. destruct H2 as [Hp2 Hr2 Hi2 Hj2].
    destruct (setting_baud_rate s) as [baud|]; [|now constructor].
    unfold cb_findData. rewrite Hr2.
    destruct (findData_baud_rows baud) as [Hnone | Hsome].
    - cbv zeta in Hnone. rewrite Hnone. now constructor.
    - cbv zeta in Hsome.
      replace (-1 <? findData_from 0 baud baud_rows) with true
        by (symmetry; apply Z.ltb_lt; lia).
      constructor; try assumption.
      cbn [baud_combobox set_baud_combobox]. unfold cb_setCurrentIndex, cb_count.
      rewrite Hr2. cbn [cb_index length].
      replace ((0 <=? findData_from 0 baud baud_rows) &&
               (findData_from 0 baud baud_rows <? Z.of_nat (length baud_rows)))
        with true; [cbv iota; lia|].
      symmetry. apply andb_true_iff.
      split; [apply Z.leb_le | apply Z.ltb_lt]; change (length baud_rows) with 3%nat; lia. }
  destruct H3. destruct (setting_artemis s); [|now constructor].
  destruct (py_eq _ _); now constructor.
Qed.

Lemma inv_init env s : window_inv (MainWindow_init env s).
Proof.
  unfold MainWindow_init.
  set (w4 := _load_settings s _).
  assert (H4 : window_inv w4).
  { subst w4. apply inv_load_settings. constructor.
    - reflexivity.
    - reflexivity.
    - cbn. lia.
    - constructor. }
  destruct H4. now constructor.
Qed.

Lemma reachable_inv w : reachable w -> window_inv w.
Proof.
  induction 1 as [env s | e w _ IH]; [apply inv_init | now apply inv_dispatch].
Qed.

(** C8. The baud combobox offers exactly 115200, 460800 and 921600, the
    current baud rate is always one of them, and every job handed to the
    worker carries one of them as its baud rate. *)
Theorem baud_rates_fixed_set (w : MainWindow) :
  reachable w ->
  map snd (cb_items (baud_combobox w)) = map PyInt allowed_bauds /\
  allowed_baud (baudRate w) /\
  (forall j, j ∈ worker_jobs w ->
     exists v, job_args j !! "baud" = Some v /\ allowed_baud v).
Proof.
  intros Hw. destruct (reachable_inv w Hw) as [_ Hrows Hidx Hjobs].
  split; [now rewrite Hrows|]. split; [now apply baudRate_allowed|].
  intros j Hj. rewrite Forall_forall in Hjobs. now apply Hjobs.
Qed.

Lemma uploading_window_reachable :
  reachable (dispatch (UploadPressed demo_env) ready_window).
Proof. repeat apply reach_event. apply reach_init. Defined.

Lemma baud_rates_fixed_set_witness :
  map snd (cb_items (baud_combobox (dispatch (UploadPressed demo_env) ready_window)))
    = map PyInt allowed_bauds /\
  allowed_baud (baudRate (dispatch (UploadPressed demo_env) ready_window)) /\
  (forall j, j ∈ worker_jobs (dispatch (UploadPressed demo_env) ready_window) ->
     exists v, job_args j !! "baud" = Some v /\ allowed_baud v).
Proof.
  exact (baud_rates_fixed_set _ uploading_window_reachable).
Defined.

(** C1, as the window has it. Whichever board family is selected, the
    window holds magic number 0xCB, image load address 0x20000 and blob load
    address 0xC000, the values its constructor wrote; triggering the
    selector changes none of them, and a job handed to the worker carries
    the keys port, baud and file and nothing else. *)
Theorem packaging_params_fixed_by_constructor (w : MainWindow) :
  reachable w ->
  magic_num w = 0xCB /\ load_address_image w = 0x20000 /\ load_address_blob w = 0xC000 /\
  (forall b, packaging_params (dispatch (BoardTriggered b) w) = packaging_params w) /\
  (forall j, j ∈ worker_jobs w -> dom (job_args j) = job_keys).
Proof.
  intros Hw. destruct (reachable_inv w Hw) as [Hp _ _ Hjobs].
  unfold packaging_params in Hp. injection Hp as Hm Hi Hb.
  repeat split; try assumption.
  - now destruct b.
  - intros j Hj. rewrite Forall_forall in Hjobs. now apply Hjobs.
Qed.

Lemma packaging_params_fixed_by_constructor_witness :
  magic_num (dispatch (BoardTriggered Apollo3) ready_window) = 0xCB /\
  load_address_image (dispatch (BoardTriggered Apollo3) ready_window) = 0x20000 /\
  load_address_blob (dispatch (BoardTriggered Apollo3) ready_window) = 0xC000.
Proof.
  destruct (packaging_params_fixed_by_constructor
              (dispatch (BoardTriggered Apollo3) ready_window)) as (Hm & Hi & Hb & _).
  - repeat apply reach_event. apply reach_init.
  - repeat split; assumption.
Defined.

(** C1, as stated, fails: with Artemis selected and with Apollo3 selected
    the same window holds the same three values and submits the same job,
    so the selection is not what fixes them. *)
Lemma board_selector_does_not_fix_params :
  selected_board (dispatch (BoardTriggered Artemis) ready_window) = Artemis /\
  selected_board (dispatch (BoardTriggered Apollo3) ready_window) = Apollo3 /\
  packaging_params (dispatch (BoardTriggered Artemis) ready_window) =
    packaging_params (dispatch (BoardTriggered Apollo3) ready_window) /\
  worker_jobs (dispatch (UploadPressed demo_env)
                 (dispatch (BoardTriggered Artemis) ready_window)) =
    worker_jobs (dispatch (UploadPressed demo_env)
                   (dispatch (BoardTriggered Apollo3) ready_window)) /\
  length (worker_jobs (dispatch (UploadPressed demo_env)
                         (dispatch (BoardTriggered Apollo3) ready_window))) = 1%nat.
Proof. repeat split. Qed.

End GuiProofs.

(* ===================================================================== *)
(** ** Properties of the upload core                                      *)
(* ===================================================================== *)

Module CoreProofs.
Import Core.

Local Open Scope nat_scope.

Section PackagerProperties.

Variable checksum : list byte -> Z.
Variable encode_field : Z -> list byte.
Variable alignment : nat.
Variable max_ota_length : nat.
Variable max_wired_length : nat.

Local Abbreviation pad := (pad alignment).
Local Abbreviation padding := (padding alignment).
Local Abbreviation serializeOta := (serializeOta encode_field).
Local Abbreviation serializeWired := (serializeWired encode_field).
Local Abbreviation packageOta := (packageOta checksum encode_field alignment max_ota_length).
Local Abbreviation packageWired := (packageWired checksum encode_field max_wired_length).
Local Abbreviation packageBlob :=
  (packageBlob checksum encode_field alignment max_ota_length max_wired_length).



Lemma packageOta_ok image la magic c :
  packageOta image la magic = Ok c ->
  c = mkOta (length (pad image)) magic la
            (checksum (serializeOta (mkOta (length (pad image)) magic la 0%Z (pad image))))
            (pad image).
Proof.
  unfold Core.packageOta. destruct (max_ota_length <? length image); [discriminate|].
  intros H. injection H as <-. reflexivity.
Qed.

Lemma packageWired_ok ota lb w :
  packageWired ota lb = Ok w ->
  w = mkWired lb (length (serializeOta ota))
              (checksum (serializeWired
                 (mkWired lb (length (serializeOta ota)) 0%Z (serializeOta ota))))
              (serializeOta ota).
Proof.
  unfold Core.packageWired. destruct (max_wired_length <? length _); [discriminate|].
  intros H. injection H as <-. reflexivity.
Qed.


(** The bytes the pipeline returns, spelled out: every byte is fixed by
    the image, the three parameters and the codec; the padding is zeros. *)
Lemma packageBlob_bytes image la magic lb out :
  packageBlob image la magic lb = Ok out ->
  let payload := image ++ repeat Byte.x00 (padding (length image)) in
  let ota0 := mkOta (length payload) magic la 0%Z payload in
  let ota := ota_with_integrity (checksum (serializeOta ota0)) ota0 in
  let w0 := mkWired lb (length (serializeOta ota)) 0%Z (serializeOta ota) in
  out = serializeWired (wired_with_integrity (checksum (serializeWired w0)) w0).
Proof.
  unfold Core.packageBlob.
  destruct (packageOta image la magic) as [ota|e] eqn:Hota; [|discriminate].
  destruct (packageWired ota lb) as [w|e] eqn:Hw; [|discriminate].
  intros H. injection H as <-.
  apply packageOta_ok in Hota. apply packageWired_ok in Hw. subst. reflexivity.
Qed.

End PackagerProperties.

(** *** What a trace shows *)

(** The timeout class of every read, in order. *)
Fixpoint read_classes (tr : list Event) : list TimeoutClass :=
  match tr with
  | [] => []
  | EvRead tc _ :: rest => tc :: read_classes rest
  | _ :: rest => read_classes rest
  end.

(** The frames written, in order. *)
Fixpoint frames_written (tr : list Event) : list HostMsg :=
  match tr with
  | [] => []
  | EvWrite (FrameMsg n p c) :: rest => FrameMsg n p c :: frames_written rest
  | _ :: rest => frames_written rest
  end.

(** The progress events, in order. *)
Fixpoint progress_events (tr : list Event) : list (nat * nat) :=
  match tr with
  | [] => []
  | EvProgress sent total :: rest => (sent, total) :: progress_events rest
  | _ :: rest => progress_events rest
  end.

(** The transport was opened. *)
Definition opened (tr : list Event) : Prop :=
  exists port baud, In (EvOpen port baud) tr.

Lemma read_classes_app tr1 tr2 :
  read_classes (tr1 ++ tr2) = read_classes tr1 ++ read_classes tr2.
Proof.
  induction tr1 as [|e tr1 IH]; [reflexivity|].
  destruct e; cbn; now rewrite IH.
Qed.

Lemma frames_written_app tr1 tr2 :
  frames_written (tr1 ++ tr2) = frames_written tr1 ++ frames_written tr2.
Proof.
  induction tr1 as [|e tr1 IH]; [reflexivity|].
  destruct e as [| [| |] | | | |]; cbn; now rewrite IH.
Qed.

Lemma progress_events_app tr1 tr2 :
  progress_events (tr1 ++ tr2) = progress_events tr1 ++ progress_events tr2.
Proof.
  induction tr1 as [|e tr1 IH]; [reflexivity|].
  destruct e; cbn; now rewrite IH.
Qed.

Section SessionProperties.

Variable frame_crc : list byte -> Z.
Variable cfg : SessionConfig.
Variable stream : ByteStream.
Variable dev : Device.

Local Abbreviation session_step := (session_step frame_crc cfg stream dev).
Local Abbreviation run := (run frame_crc cfg stream dev).
Local Abbreviation frame_msg := (frame_msg frame_crc cfg stream).
Local Abbreviation in_flight := (in_flight cfg).

Lemma run_S fuel s : run (S fuel) s = run fuel (session_step s).
Proof. reflexivity. Qed.

Lemma run_add a b s : run (a + b) s = run b (run a s).
Proof.
  revert s. induction a as [|a IH]; intros s; [reflexivity|].
  cbn [Nat.add]. now rewrite !run_S, IH.
Qed.

Lemma step_terminal s : terminal (phase s) = true -> session_step s = s.
Proof.
  unfold Core.session_step. destruct (phase s); try discriminate; reflexivity.
Qed.

(** [Done] and [Aborted] are final: more fuel changes nothing. *)
Lemma run_terminal fuel s : terminal (phase s) = true -> run fuel s = s.
Proof.
  intros H. induction fuel as [|fuel IH]; [reflexivity|].
  now rewrite run_S, step_terminal.
Qed.

Lemma run_enough a fuel s :
  terminal (phase (run a s)) = true -> a <= fuel -> run fuel s = run a s.
Proof.
  intros Ht Hle. replace fuel with (a + (fuel - a)) by lia.
  rewrite run_add. now apply run_terminal.
Qed.

(** *** Timeout classes *)

(** The classes of the first [n] reads of a session. *)
Definition reads_pattern (n : nat) : list TimeoutClass :=
  match n with
  | 0 => []
  | S m => DetectTimeout :: repeat ProtocolTimeout m
  end.

(** How many reads a phase can have behind it. *)
Definition phase_reads (p : Phase) (n : nat) : Prop :=
  match p with
  | Idle | BaudDetect => n = 0
  | VersionHandshake | Transferring | Completing => 1 <= n
  | Done | Aborted _ => True
  end.

Definition reads_inv (s : Session) : Prop :=
  read_classes (trace s) = reads_pattern (reads s) /\ phase_reads (phase s) (reads s).

Lemma reads_pattern_next n :
  1 <= n -> reads_pattern n ++ [ProtocolTimeout] = reads_pattern (S n).
Proof.
  destruct n as [|m]; [lia|]. intros _. cbn. f_equal.
  symmetry. apply (repeat_cons m ProtocolTimeout).
Qed.

Lemma reads_inv_protocol_read s r evs p :
  reads_inv s -> 1 <= reads s -> read_classes evs = [] ->
  p <> Idle -> p <> BaudDetect ->
  read_classes (trace s ++ [EvRead ProtocolTimeout r] ++ evs) = reads_pattern (S (reads s)) /\
  phase_reads p (S (reads s)).
Proof.
  intros [Hc _] Hn Hevs Hp1 Hp2. split.
  - rewrite !read_classes_app, Hc, Hevs. cbn [read_classes].
    rewrite app_nil_r. now apply reads_pattern_next.
  - destruct p; cbn; try lia; congruence.
Qed.

Ltac late_phase :=
  cbn [phase]; try discriminate;
  try match goal with
  | |- (if ?c then _ else _) <> _ => destruct c; discriminate
  | H : phase ?s = _ |- phase ?s <> _ => rewrite H; discriminate
  end.

Lemma reads_inv_resend s r :
  reads_inv s -> 1 <= reads s -> phase s = Transferring \/ phase s = Completing ->
  reads_inv (on_resend frame_crc cfg stream r s).
Proof.
  intros Hs Hn Hph.
  assert (Hlate : phase s <> Idle /\ phase s <> BaudDetect)
    by (destruct Hph as [-> | ->]; split; discriminate).
  destruct Hlate as [Hl1 Hl2].
  unfold Core.on_resend, Core.abort, reads_inv.
  destruct (in_flight s); [destruct (maxRetries cfg <? _)|]; cbn [trace reads phase].
  - apply (reads_inv_protocol_read s r [] _ Hs Hn eq_refl); discriminate.
  - apply (reads_inv_protocol_read s r [EvWrite _] _ Hs Hn eq_refl); assumption.
  - apply (reads_inv_protocol_read s r [] _ Hs Hn eq_refl); discriminate.
Qed.

Lemma acknowledged_no_reads s : read_classes (acknowledged cfg stream s) = [].
Proof. unfold Core.acknowledged. now destruct (in_flight s). Qed.

Lemma reads_inv_step s : reads_inv s -> reads_inv (session_step s).
Proof.
  intros Hs. pose proof Hs as [Hc Hp].
  unfold Core.session_step. cbv zeta. destruct (phase s) eqn:Hphase; cbn in Hp.
  - split; cbn [trace reads phase].
    + rewrite read_classes_app, Hc. cbn. now rewrite app_nil_r.
    + exact Hp.
  - assert (Habort : forall r, reads_inv
              (abort HandshakeTimeoutError [EvRead DetectTimeout r] s)).
    { intros r. split; cbn [abort trace reads phase]; [|exact I].
      rewrite read_classes_app, Hc, Hp. reflexivity. }
    destruct (dev (reads s) DetectTimeout) as [[v f| | | |]|]; try apply Habort.
    split; cbn [trace reads phase]; [|cbn; lia].
    rewrite read_classes_app, Hc, Hp. reflexivity.
  - split; cbn [trace reads phase].
    + rewrite !read_classes_app, Hc.
      destruct (bootloaderVersion s), (expectedVersion cfg);
        try destruct (_ =? _)%Z; cbn; now rewrite app_nil_r.
    + destruct (0 <? stream_length stream); exact Hp.
  - destruct (dev (reads s) ProtocolTimeout) as [[v f| | | |]|];
      try (apply (reads_inv_protocol_read s _ [] _ Hs Hp eq_refl); late_phase);
      try (apply reads_inv_resend; auto).
    apply (reads_inv_protocol_read s _ (acknowledged cfg stream s ++ [EvWrite _]) _ Hs Hp);
      [|late_phase..].
    rewrite read_classes_app, acknowledged_no_reads. reflexivity.
  - destruct (dev (reads s) ProtocolTimeout) as [[v f| | | |]|];
      try (apply (reads_inv_protocol_read s _ [] _ Hs Hp eq_refl); late_phase);
      try (apply reads_inv_resend; auto).
    apply (reads_inv_protocol_read s _ (acknowledged cfg stream s) _ Hs Hp);
      [|late_phase..].
    apply acknowledged_no_reads.
  - exact Hs.
  - exact Hs.
Qed.

Lemma reads_inv_run fuel s : reads_inv s -> reads_inv (run fuel s).
Proof.
  revert s. induction fuel as [|fuel IH]; intros s Hs; [exact Hs|].
  rewrite run_S. apply IH. now apply reads_inv_step.
Qed.

Lemma reads_pattern_nth n i tc :
  nth_error (reads_pattern n) i = Some tc ->
  tc = if i =? 0 then DetectTimeout else ProtocolTimeout.
Proof.
  destruct n as [|m]; [destruct i; discriminate|].
  destruct i as [|i]; cbn; [congruence|].
  intros H. apply nth_error_In, repeat_spec in H. exact H.
Qed.

(** C6. When the read of BaudDetect brings no version report, the session
    ends in HandshakeTimeoutError, having made that one read under the
    detection timeout; and in every session, however far it has run, the
    first read is the only one under the detection timeout: every later
    read is made under the protocol timeout. *)
Theorem baud_detect_only_short_timeout :
  ((forall v f, dev 0 DetectTimeout <> Received (VersionReport v f)) ->
   forall fuel, 2 <= fuel ->
     phase (run fuel session_start) = Aborted HandshakeTimeoutError /\
     trace (run fuel session_start) =
       [EvWrite TrainingChar; EvRead DetectTimeout (dev 0 DetectTimeout)])
  /\
  (forall fuel i tc,
     nth_error (read_classes (trace (run fuel session_start))) i = Some tc ->
     tc = if i =? 0 then DetectTimeout else ProtocolTimeout).
Proof.
  split.
  - intros Hno fuel Hfuel.
    assert (H2 : run 2 session_start =
                 abort HandshakeTimeoutError [EvRead DetectTimeout (dev 0 DetectTimeout)]
                   (mkSession None None 0 0 0 BaudDetect 0 [EvWrite TrainingChar])).
    { cbn. destruct (dev 0 DetectTimeout) as [[v f| | | |]|] eqn:Hd; try reflexivity.
      exfalso. apply (Hno v f). reflexivity. }
    rewrite (run_enough 2 fuel) by (rewrite ?H2; auto).
    rewrite H2. split; reflexivity.
  - intros fuel i tc H.
    assert (Hinv : reads_inv (run fuel session_start)).
    { apply reads_inv_run. split; reflexivity. }
    destruct Hinv as [Hc _]. rewrite Hc in H.
    now apply reads_pattern_nth in H.
Qed.

(** *** The handshake *)

(** What the version handshake logs about the reported version. *)
Definition version_events (v : Z) : list Event :=
  match expectedVersion cfg with
  | Some e => if (v =? e)%Z then [] else [EvVersionMismatch v e]
  | None => []
  end.

(** The session after training character, version report and begin. *)
Definition handshaken (v f : Z) : Session :=
  mkSession (Some (baud cfg)) (Some v) 0 0 0
            (if 0 <? stream_length stream then Transferring else Completing) 1
            (([] ++ [EvWrite TrainingChar]) ++
              [EvRead DetectTimeout (Received (VersionReport v f))] ++
              version_events v ++ [EvWrite BeginUpdate]).

Lemma run_handshake v f :
  dev 0 DetectTimeout = Received (VersionReport v f) ->
  run 3 session_start = handshaken v f.
Proof.
  intros Hd0.
  assert (H1 : session_step session_start =
               mkSession None None 0 0 0 BaudDetect 0 ([] ++ [EvWrite TrainingChar]))
    by reflexivity.
  assert (H2 : session_step (mkSession None None 0 0 0 BaudDetect 0
                               ([] ++ [EvWrite TrainingChar])) =
               mkSession (Some (baud cfg)) (Some v) 0 0 0 VersionHandshake 1
                 (([] ++ [EvWrite TrainingChar]) ++
                  [EvRead DetectTimeout (Received (VersionReport v f))])).
  { unfold Core.session_step. cbn [phase reads]. rewrite Hd0. reflexivity. }
  rewrite !run_S, H1, H2. cbn [Core.run].
  unfold Core.session_step, handshaken, version_events. cbn [phase].
  cbn [negotiatedBaudRate bootloaderVersion bytesSent currentFrameIndex
       retryCountForCurrentFrame reads trace].
  rewrite <- app_assoc. reflexivity.
Qed.

(** The session after the first request for a frame. *)
Definition first_frame_sent (v f : Z) : Session :=
  mkSession (Some (baud cfg)) (Some v) (frame_length cfg stream 0) 0 0
            (if frame_length cfg stream 0 <? stream_length stream
             then Transferring else Completing) 2
            (trace (handshaken v f) ++
             [EvRead ProtocolTimeout (Received SendNextFrame)] ++ [] ++
             [EvWrite (frame_msg 0)]).

Lemma run_first_frame v f :
  0 < stream_length stream ->
  dev 0 DetectTimeout = Received (VersionReport v f) ->
  dev 1 ProtocolTimeout = Received SendNextFrame ->
  run 4 session_start = first_frame_sent v f.
Proof.
  intros Hlen Hd0 Hd1.
  change 4 with (3 + 1). rewrite run_add, (run_handshake v f Hd0). cbn [Core.run].
  unfold handshaken, first_frame_sent.
  replace (0 <? stream_length stream) with true by (symmetry; now apply Nat.ltb_lt).
  unfold Core.session_step. cbn [phase reads]. rewrite Hd1. cbv zeta.
  unfold Core.acknowledged, Core.in_flight.
  cbn [negotiatedBaudRate bootloaderVersion bytesSent currentFrameIndex
       retryCountForCurrentFrame reads trace].
  change (0 * frameSize cfg <? 0) with false. cbv iota.
  rewrite Nat.add_0_l. reflexivity.
Qed.

Lemma version_events_silent v :
  frames_written (version_events v) = [] /\ progress_events (version_events v) = [].
Proof.
  unfold version_events.
  destruct (expectedVersion cfg) as [e|]; [destruct (v =? e)%Z|]; split; reflexivity.
Qed.

Lemma first_frame_sent_frames v f :
  frames_written (trace (first_frame_sent v f)) = [frame_msg 0] /\
  progress_events (trace (first_frame_sent v f)) = [].
Proof.
  unfold first_frame_sent, handshaken. cbn [trace].
  rewrite !frames_written_app, !progress_events_app.
  destruct (version_events_silent v) as [-> ->]. split; reflexivity.
Qed.

(** *** Every session ends *)

(** What holds of a session that has not ended: the retry count is within
    the limit, and the bytes sent are those of the frames up to the current
    one. *)
Definition session_inv (s : Session) : Prop :=
  (terminal (phase s) = false -> retryCountForCurrentFrame s <= maxRetries cfg) /\
  (phase s = Transferring -> bytesSent s < stream_length stream) /\
  (phase s = Idle \/ phase s = BaudDetect \/ phase s = VersionHandshake ->
   bytesSent s = 0) /\
  ((bytesSent s = 0 /\ currentFrameIndex s = 0) \/
   (currentFrameIndex s * frameSize cfg < stream_length stream /\
    bytesSent s = Nat.min (S (currentFrameIndex s) * frameSize cfg) (stream_length stream))).

(** The moves a session has left at most. *)
Definition moves_left (s : Session) : nat :=
  let transfer := (stream_length stream - bytesSent s) * S (maxRetries cfg) +
                  (maxRetries cfg - retryCountForCurrentFrame s) + 1 in
  let whole := stream_length stream * S (maxRetries cfg) + maxRetries cfg + 1 in
  match phase s with
  | Idle => whole + 3
  | BaudDetect => whole + 2
  | VersionHandshake => whole + 1
  | Transferring | Completing => transfer
  | Done | Aborted _ => 0
  end.

Ltac early_phase :=
  match goal with
  | |- _ \/ _ \/ _ -> _ =>
      let H := fresh in
      intros [H | [H | H]]; try discriminate H; auto
  end.

Ltac session_goals :=
  repeat split; try discriminate; auto; try early_phase; try first [lia | nia].

Lemma resend_progress r s :
  0 < frameSize cfg -> session_inv s ->
  phase s = Transferring \/ phase s = Completing ->
  session_inv (on_resend frame_crc cfg stream r s) /\
  moves_left (on_resend frame_crc cfg stream r s) < moves_left s.
Proof.
  intros Hfs (Hretry & Hmore & Hearly & Hshape) Hph.
  assert (Hr : retryCountForCurrentFrame s <= maxRetries cfg)
    by (apply Hretry; destruct Hph as [-> | ->]; reflexivity).
  unfold Core.on_resend, Core.abort, session_inv, moves_left.
  destruct (in_flight s);
    [destruct (Nat.ltb_spec (maxRetries cfg) (S (retryCountForCurrentFrame s)))|];
    destruct Hph as [Hph | Hph]; rewrite Hph;
    cbn [phase bytesSent currentFrameIndex retryCountForCurrentFrame terminal];
    session_goals.
Qed.

Lemma step_progress s :
  0 < frameSize cfg -> session_inv s -> terminal (phase s) = false ->
  session_inv (session_step s) /\ moves_left (session_step s) < moves_left s.
Proof.
  intros Hfs Hinv Hlive. pose proof Hinv as (Hretry & Hmore & Hearly & Hshape).
  specialize (Hretry Hlive).
  unfold Core.session_step. cbv zeta.
  destruct (phase s) eqn:Hphase; try discriminate.
  - unfold session_inv, moves_left. rewrite Hphase. cbn. session_goals.
  - unfold session_inv, moves_left, Core.abort. rewrite Hphase.
    destruct (dev (reads s) DetectTimeout) as [[v f| | | |]|]; cbn; session_goals.
  - assert (Hb : bytesSent s = 0) by auto.
    unfold session_inv, moves_left. rewrite Hphase.
    cbn [phase bytesSent currentFrameIndex retryCountForCurrentFrame].
    destruct (Nat.ltb_spec 0 (stream_length stream)); cbn [terminal]; session_goals.
  - destruct (dev (reads s) ProtocolTimeout) as [[v f| | | |]|];
      try solve [apply resend_progress; auto];
      try solve [unfold session_inv, moves_left, Core.abort; rewrite Hphase; cbn;
                 session_goals].
    specialize (Hmore eq_refl).
    unfold session_inv, moves_left, Core.in_flight, Core.frame_length. rewrite Hphase.
    cbn [phase bytesSent currentFrameIndex retryCountForCurrentFrame].
    destruct Hshape as [[Hb Hi] | [Hi Hb]].
    + rewrite Hb, Hi, ?Nat.mul_0_l, ?Nat.sub_0_r, ?Nat.add_0_l.
      change (0 <? 0) with false. cbv iota. rewrite ?Nat.mul_0_l, ?Nat.sub_0_r.
      rewrite Hb in Hmore.
      destruct (Nat.ltb_spec (Nat.min (frameSize cfg) (stream_length stream))
                             (stream_length stream));
        cbn [terminal]; session_goals.
      all: right; split; lia.
    + assert (Hnext : S (currentFrameIndex s) * frameSize cfg < stream_length stream) by lia.
      replace (currentFrameIndex s * frameSize cfg <? bytesSent s) with true
        by (symmetry; apply Nat.ltb_lt; lia).
      destruct (Nat.ltb_spec
                  (bytesSent s + Nat.min (frameSize cfg)
                     (stream_length stream - S (currentFrameIndex s) * frameSize cfg))
                  (stream_length stream));
        cbn [terminal]; session_goals.
      all: right; split; lia.
  - destruct (dev (reads s) ProtocolTimeout) as [[v f| | | |]|];
      try solve [apply resend_progress; auto];
      try solve [unfold session_inv, moves_left, Core.abort; rewrite Hphase; cbn;
                 session_goals].
Qed.

Lemma run_ends n : forall s,
  0 < frameSize cfg -> session_inv s -> moves_left s <= n ->
  terminal (phase (run n s)) = true.
Proof.
  induction n as [|n IH]; intros s Hfs Hinv Hn.
  - cbn. unfold moves_left in Hn. destruct (phase s); try reflexivity; nia.
  - destruct (terminal (phase s)) eqn:Hlive.
    + now rewrite run_terminal.
    + rewrite run_S. destruct (step_progress s Hfs Hinv Hlive) as [Hinv1 Hless].
      apply IH; auto. lia.
Qed.

(** Whatever the device does, a session with a positive frame size reaches
    [Done] or [Aborted] within a number of moves fixed by the stream length
    and the retry limit. *)
Lemma session_terminates fuel :
  0 < frameSize cfg ->
  stream_length stream * S (maxRetries cfg) + maxRetries cfg + 4 <= fuel ->
  terminal (phase (run fuel session_start)) = true.
Proof.
  intros Hfs Hfuel. apply run_ends; auto.
  - repeat split; try discriminate; cbn; auto; lia.
  - unfold moves_left. cbn [phase session_start]. lia.
Qed.

(** *** The retry limit *)

(** One re-request of frame [idx] and the frame written again. *)
Definition resend_exchange (idx : nat) : list Event :=
  [EvRead ProtocolTimeout (Received ResendPreviousFrame); EvWrite (frame_msg idx)].

Definition transferring (s : Session) : Prop :=
  phase s = Transferring \/ phase s = Completing.

Lemma step_resend s :
  transferring s ->
  dev (reads s) ProtocolTimeout = Received ResendPreviousFrame ->
  session_step s = on_resend frame_crc cfg stream (Received ResendPreviousFrame) s.
Proof.
  intros [Hph | Hph] Hdev; unfold Core.session_step; rewrite Hph; cbv zeta;
    now rewrite Hdev.
Qed.

(** While the limit is not exceeded, every re-request is answered by the
    same frame and counted. *)
Lemma run_resends n : forall s,
  transferring s -> in_flight s = true ->
  retryCountForCurrentFrame s + n <= maxRetries cfg ->
  (forall k, k < n -> dev (reads s + k) ProtocolTimeout = Received ResendPreviousFrame) ->
  run n s =
    mkSession (negotiatedBaudRate s) (bootloaderVersion s) (bytesSent s)
              (currentFrameIndex s) (retryCountForCurrentFrame s + n)
              (phase s) (reads s + n)
              (trace s ++ concat (repeat (resend_exchange (currentFrameIndex s)) n)).
Proof.
  induction n as [|n IH]; intros s Hph Hfl Hretry Hdev.
  - cbn. rewrite !Nat.add_0_r, app_nil_r. now destruct s.
  - rewrite run_S, step_resend; [|exact Hph|].
    2:{ rewrite <- (Nat.add_0_r (reads s)). apply Hdev. lia. }
    unfold Core.on_resend. rewrite Hfl.
    replace (maxRetries cfg <? S (retryCountForCurrentFrame s)) with false
      by (symmetry; apply Nat.ltb_ge; lia).
    rewrite IH; cbn [negotiatedBaudRate bootloaderVersion bytesSent currentFrameIndex
                     retryCountForCurrentFrame phase reads trace].
    + f_equal; try lia. rewrite <- app_assoc. reflexivity.
    + exact Hph.
    + exact Hfl.
    + lia.
    + intros k Hk. replace (S (reads s) + k) with (reads s + S k) by lia.
      apply Hdev. lia.
Qed.

Lemma frames_written_resends idx n :
  frames_written (concat (repeat (resend_exchange idx) n)) = repeat (frame_msg idx) n.
Proof.
  induction n as [|n IH]; [reflexivity|].
  cbn [repeat concat]. rewrite frames_written_app, IH. reflexivity.
Qed.

Lemma retry_limit_from s :
  transferring s -> in_flight s = true ->
  retryCountForCurrentFrame s <= maxRetries cfg ->
  (forall k, k <= maxRetries cfg - retryCountForCurrentFrame s ->
     dev (reads s + k) ProtocolTimeout = Received ResendPreviousFrame) ->
  let n := maxRetries cfg - retryCountForCurrentFrame s in
  run (S n) s =
    mkSession (negotiatedBaudRate s) (bootloaderVersion s) (bytesSent s)
              (currentFrameIndex s) (S (maxRetries cfg))
              (Aborted FrameIntegrityError) (S (reads s + n))
              (trace s ++ concat (repeat (resend_exchange (currentFrameIndex s)) n) ++
               [EvRead ProtocolTimeout (Received ResendPreviousFrame)]).
Proof.
  intros Hph Hfl Hretry Hdev n.
  replace (S n) with (n + 1) by lia. rewrite run_add.
  rewrite (run_resends n s); try assumption; try (subst n; lia).
  2:{ intros k Hk. apply Hdev. subst n. lia. }
  cbn [Core.run]. rewrite step_resend.
  - unfold Core.on_resend, Core.in_flight in *.
    cbn [bytesSent currentFrameIndex retryCountForCurrentFrame reads trace
         negotiatedBaudRate bootloaderVersion].
    rewrite Hfl.
    replace (maxRetries cfg <? S (retryCountForCurrentFrame s + n)) with true
      by (symmetry; apply Nat.ltb_lt; subst n; lia).
    f_equal; [subst n; lia | now rewrite <- app_assoc].
  - exact Hph.
  - cbn [reads]. apply Hdev. subst n. lia.
Qed.

(** After the handshake and the first request, frame 0 is in flight with
    no retry counted. *)
Lemma first_frame_in_flight v f :
  0 < frameSize cfg -> 0 < stream_length stream ->
  dev 0 DetectTimeout = Received (VersionReport v f) ->
  dev 1 ProtocolTimeout = Received SendNextFrame ->
  transferring (run 4 session_start) /\
  in_flight (run 4 session_start) = true /\
  retryCountForCurrentFrame (run 4 session_start) = 0 /\
  reads (run 4 session_start) = 2 /\
  currentFrameIndex (run 4 session_start) = 0 /\
  frames_written (trace (run 4 session_start)) = [frame_msg 0].
Proof.
  intros Hfs Hlen Hd0 Hd1.
  rewrite (run_first_frame v f Hlen Hd0 Hd1).
  assert (Hsent : 0 < frame_length cfg stream 0).
  { unfold Core.frame_length. rewrite Nat.mul_0_l, Nat.sub_0_r. lia. }
  repeat split; try apply first_frame_sent_frames.
  - unfold transferring, first_frame_sent. cbn [phase].
    destruct (_ <? _); auto.
  - unfold Core.in_flight, first_frame_sent. cbn [currentFrameIndex bytesSent].
    rewrite Nat.mul_0_l. now apply Nat.ltb_lt.
Qed.

(** C2. Once a frame is in flight, a device that asks for it again more
    often than the retry limit allows brings the session to
    FrameIntegrityError: counted from a frame with no retries yet, the
    frame is written again [maxRetries] times and no more, so the frame
    takes [maxRetries + 1] exchanges, and more fuel changes nothing. From
    the start of a session, a device that reports a CRC failure for every
    frame it is sent stops the upload after [maxRetries + 1] writes of the
    first frame. Whatever the device does, a session with a positive frame
    size ends within a number of moves fixed by the stream length and the
    retry limit. *)
Theorem retry_limit_aborts_upload :
  (forall s,
     transferring s -> in_flight s = true ->
     retryCountForCurrentFrame s <= maxRetries cfg ->
     (forall k, k <= maxRetries cfg - retryCountForCurrentFrame s ->
        dev (reads s + k) ProtocolTimeout = Received ResendPreviousFrame) ->
     forall fuel, S (maxRetries cfg - retryCountForCurrentFrame s) <= fuel ->
       phase (run fuel s) = Aborted FrameIntegrityError /\
       reads (run fuel s) = S (reads s + (maxRetries cfg - retryCountForCurrentFrame s)) /\
       frames_written (trace (run fuel s)) =
         frames_written (trace s) ++
         repeat (frame_msg (currentFrameIndex s))
                (maxRetries cfg - retryCountForCurrentFrame s))
  /\
  (forall v f,
     0 < frameSize cfg -> 0 < stream_length stream ->
     dev 0 DetectTimeout = Received (VersionReport v f) ->
     dev 1 ProtocolTimeout = Received SendNextFrame ->
     (forall k, 2 <= k -> dev k ProtocolTimeout = Received ResendPreviousFrame) ->
     forall fuel, maxRetries cfg + 5 <= fuel ->
       phase (run fuel session_start) = Aborted FrameIntegrityError /\
       reads (run fuel session_start) = maxRetries cfg + 3 /\
       frames_written (trace (run fuel session_start)) =
         repeat (frame_msg 0) (maxRetries cfg + 1))
  /\
  (0 < frameSize cfg ->
   forall fuel, stream_length stream * S (maxRetries cfg) + maxRetries cfg + 4 <= fuel ->
     terminal (phase (run fuel session_start)) = true).
Proof.
  assert (Hmain : forall s,
     transferring s -> in_flight s = true ->
     retryCountForCurrentFrame s <= maxRetries cfg ->
     (forall k, k <= maxRetries cfg - retryCountForCurrentFrame s ->
        dev (reads s + k) ProtocolTimeout = Received ResendPreviousFrame) ->
     forall fuel, S (maxRetries cfg - retryCountForCurrentFrame s) <= fuel ->
       phase (run fuel s) = Aborted FrameIntegrityError /\
       reads (run fuel s) = S (reads s + (maxRetries cfg - retryCountForCurrentFrame s)) /\
       frames_written (trace (run fuel s)) =
         frames_written (trace s) ++
         repeat (frame_msg (currentFrameIndex s))
                (maxRetries cfg - retryCountForCurrentFrame s)).
  { intros s Hph Hfl Hretry Hdev fuel Hfuel.
    pose proof (retry_limit_from s Hph Hfl Hretry Hdev) as Hrun. cbv zeta in Hrun.
    rewrite (run_enough (S (maxRetries cfg - retryCountForCurrentFrame s)) fuel);
      [|now rewrite Hrun|exact Hfuel].
    rewrite Hrun. cbn [phase reads trace]. repeat split.
    rewrite !frames_written_app, frames_written_resends. cbn. now rewrite app_nil_r. }
  split; [exact Hmain|].
  split; [|intros Hfs fuel Hfuel; now apply session_terminates].
  intros v f Hfs Hlen Hd0 Hd1 Hdk fuel Hfuel.
  replace fuel with (4 + (fuel - 4)) by lia. rewrite run_add.
  destruct (first_frame_in_flight v f Hfs Hlen Hd0 Hd1)
    as (Hph & Hfl & Hretry & Hreads & Hidx & Hframes).
  assert (H1 : retryCountForCurrentFrame (run 4 session_start) <= maxRetries cfg)
    by (rewrite Hretry; lia).
  assert (H2 : forall k,
             k <= maxRetries cfg - retryCountForCurrentFrame (run 4 session_start) ->
             dev (reads (run 4 session_start) + k) ProtocolTimeout =
               Received ResendPreviousFrame)
    by (intros k _; rewrite Hreads; apply Hdk; lia).
  assert (H3 : S (maxRetries cfg - retryCountForCurrentFrame (run 4 session_start))
               <= fuel - 4)
    by (rewrite Hretry; lia).
  destruct (Hmain _ Hph Hfl H1 H2 (fuel - 4) H3) as (Hphase & Hr & Hfw).
  - rewrite Hphase, Hr, Hfw, Hreads, Hretry, Hidx, Hframes, Nat.sub_0_r.
    repeat split; [lia|].
    replace (maxRetries cfg + 1) with (S (maxRetries cfg)) by lia. reflexivity.
Qed.

End SessionProperties.

(** *** A device that accepts every frame *)

(** The device reports its version, then asks for the next frame as long as
    bytes remain after the frames it has taken, then signals completion. *)
Definition accepting_device (v f : Z) (fs total : nat) : Device :=
  fun n _ =>
    match n with
    | 0 => Received (VersionReport v f)
    | S k => if k * fs <? total then Received SendNextFrame
             else Received TransferComplete
    end.

(** The number of frames a stream is cut into. *)
Definition frame_count (fs total : nat) : nat := (total + fs - 1) / fs.

Section AcceptingDevice.

Variable frame_crc : list byte -> Z.
Variable cfg : SessionConfig.
Variable stream : ByteStream.
Variable v f : Z.

Local Abbreviation fs := (frameSize cfg).
Local Abbreviation total := (stream_length stream).
Local Abbreviation dev := (accepting_device v f (frameSize cfg) (stream_length stream)).
Local Abbreviation session_step := (session_step frame_crc cfg stream dev).
Local Abbreviation run := (run frame_crc cfg stream dev).
Local Abbreviation frame_msg := (frame_msg frame_crc cfg stream).

Hypothesis frameSize_pos : 0 < fs.
Hypothesis stream_nonempty : 0 < total.

(** The progress event after frame [i] is acknowledged. *)
Definition progress_after (i : nat) : nat * nat := (Nat.min (S i * fs) total, total).

(** The session after the device has asked for [j] frames. *)
Record after_frames (j : nat) (s : Session) : Prop := mkAfter {
  af_phase : phase s = if j * fs <? total then Transferring else Completing;
  af_sent : bytesSent s = Nat.min (j * fs) total;
  af_index : currentFrameIndex s = j - 1;
  af_reads : reads s = S j;
  af_frames : frames_written (trace s) = map frame_msg (seq 0 j);
  af_progress : progress_events (trace s) = map progress_after (seq 0 (j - 1))
}.

Lemma after_first_frame : after_frames 1 (run 4 session_start).
Proof.
  rewrite (run_first_frame frame_crc cfg stream dev v f stream_nonempty eq_refl).
  2:{ unfold accepting_device. rewrite Nat.mul_0_l.
      replace (0 <? total) with true by (symmetry; now apply Nat.ltb_lt).
      reflexivity. }
  assert (Hlen0 : frame_length cfg stream 0 = Nat.min (1 * fs) total).
  { unfold Core.frame_length. rewrite Nat.mul_0_l, Nat.sub_0_r, Nat.mul_1_l. reflexivity. }
  constructor; try apply first_frame_sent_frames; unfold first_frame_sent;
    cbn [phase reads bytesSent currentFrameIndex].
  - rewrite Hlen0.
    destruct (Nat.ltb_spec (1 * fs) total), (Nat.ltb_spec (Nat.min (1 * fs) total) total);
      try reflexivity; lia.
  - exact Hlen0.
  - reflexivity.
  - reflexivity.
Qed.

Lemma after_next_frame j s :
  1 <= j -> j * fs < total ->
  after_frames j s -> after_frames (S j) (session_step s).
Proof.
  intros Hj Hmore [Hph Hsent Hidx Hreads Hfr Hpr].
  replace (j * fs <? total) with true in Hph by (symmetry; now apply Nat.ltb_lt).
  unfold Core.session_step. rewrite Hph, Hreads. cbn [accepting_device].
  replace (j * fs <? total) with true by (symmetry; now apply Nat.ltb_lt).
  cbv zeta. unfold Core.acknowledged, Core.in_flight. rewrite Hidx, Hsent.
  replace ((j - 1) * fs <? Nat.min (j * fs) total) with true
    by (symmetry; apply Nat.ltb_lt; nia).
  replace (S (j - 1)) with j by lia.
  assert (Hlen : Nat.min (j * fs) total + frame_length cfg stream j =
                 Nat.min (S j * fs) total).
  { unfold Core.frame_length. lia. }
  constructor; cbn [phase reads trace bytesSent currentFrameIndex].
  - rewrite Hlen. 
    destruct (Nat.ltb_spec (S j * fs) total), (Nat.ltb_spec (Nat.min (S j * fs) total) total);
      try reflexivity; lia.
  - exact Hlen.
  - lia.
  - reflexivity.
  - rewrite !frames_written_app, Hfr, seq_S, map_app. reflexivity.
  - rewrite !progress_events_app, Hpr. cbn [progress_events app].
    rewrite ?app_nil_r.
    replace (S j - 1) with (S (j - 1)) by lia.
    rewrite seq_S, map_app. cbn [map Nat.add]. unfold progress_after.
    replace (S (j - 1)) with j by lia. reflexivity.
Qed.

Lemma after_frames_run j :
  1 <= j -> (j - 1) * fs < total -> after_frames j (run (3 + j) session_start).
Proof.
  induction j as [|j IH]; [lia|]. intros _ Hlt.
  destruct j as [|j]; [apply after_first_frame|].
  replace (3 + S (S j)) with ((3 + S j) + 1) by lia.
  rewrite run_add. cbn [Core.run]. apply after_next_frame.
  - lia.
  - replace (S (S j) - 1) with (S j) in Hlt by lia. exact Hlt.
  - apply IH; [lia|]. replace (S (S j) - 1) with (S j) in Hlt by lia.
    replace (S j - 1) with j by lia. nia.
Qed.

(** The whole upload against the accepting device, for a stream that
    takes [n] frames. *)
Lemma accepting_run n fuel :
  1 <= n -> (n - 1) * fs < total -> total <= n * fs -> n + 4 <= fuel ->
  phase (run fuel session_start) = Done /\
  bytesSent (run fuel session_start) = total /\
  frames_written (trace (run fuel session_start)) = map frame_msg (seq 0 n) /\
  progress_events (trace (run fuel session_start)) = map progress_after (seq 0 n).
Proof.
  intros Hn Hlast Hall Hfuel.
  destruct (after_frames_run n Hn Hlast) as [Hph Hsent Hidx Hreads Hfr Hpr].
  replace (n * fs <? total) with false in Hph by (symmetry; apply Nat.ltb_ge; lia).
  assert (Hfinal : run (n + 4) session_start =
    mkSession (negotiatedBaudRate (run (3 + n) session_start))
              (bootloaderVersion (run (3 + n) session_start))
              total (n - 1) (retryCountForCurrentFrame (run (3 + n) session_start))
              Done (S (S n))
              (trace (run (3 + n) session_start) ++
               [EvRead ProtocolTimeout (Received TransferComplete)] ++
               [EvProgress total total])).
  { replace (n + 4) with ((3 + n) + 1) by lia. rewrite run_add. cbn [Core.run].
    unfold Core.session_step. rewrite Hph, Hreads. cbn [accepting_device].
    replace (n * fs <? total) with false by (symmetry; apply Nat.ltb_ge; lia).
    unfold Core.acknowledged, Core.in_flight. rewrite Hidx, Hsent.
    replace ((n - 1) * fs <? Nat.min (n * fs) total) with true
      by (symmetry; apply Nat.ltb_lt; lia).
    f_equal; try lia. do 3 f_equal. f_equal; lia. }
  rewrite (run_enough frame_crc cfg stream dev (n + 4) fuel); [|now rewrite Hfinal|exact Hfuel].
  rewrite Hfinal. cbn [phase bytesSent trace]. repeat split.
  - rewrite !frames_written_app, Hfr. cbn. now rewrite app_nil_r.
  - rewrite !progress_events_app, Hpr. cbn [progress_events app].
    replace (seq 0 n) with (seq 0 (S (n - 1))) by (f_equal; lia).
    rewrite seq_S, map_app. cbn [map Nat.add]. unfold progress_after.
    do 3 f_equal. replace (S (n - 1)) with n by lia. lia.
Qed.

End AcceptingDevice.

#[local] Set Warnings "-abstract-large-number".

(** Each progress event reports more bytes than the one before. *)
Fixpoint strictly_increasing (l : list (nat * nat)) : bool :=
  match l with
  | a :: rest =>
      match rest with
      | b :: _ => (fst a <? fst b) && strictly_increasing rest
      | [] => true
      end
  | [] => true
  end.

(** The frame arithmetic of a session that is handed 10,000 bytes to
    transfer in frames of 512, with a device that accepts every frame: 20
    frames are written, the last one carries the final 272 bytes, the
    progress events grow strictly and end with (10000, 10000), and the
    session is Done with all 10,000 bytes sent. How many bytes the packager
    hands to the session for an image of a given length depends on the
    width of the header fields, see [packageBlob_length]. *)
Theorem upload_10000_bytes_in_512_byte_frames
    (frame_crc : list byte -> Z) (blob : list byte)
    (b : Z) (mr : nat) (ev : option Z) (v f : Z) (fuel : nat) :
  length blob = 10000 -> 24 <= fuel ->
  let r := run frame_crc (mkConfig b 512 mr ev) (stream_of blob)
               (accepting_device v f 512 10000) fuel session_start in
  phase r = Done /\
  bytesSent r = 10000 /\
  length (frames_written (trace r)) = 20 /\
  frame_count 512 10000 = 20 /\
  (exists payload,
     List.last (frames_written (trace r)) TrainingChar =
       FrameMsg 272 payload (frame_crc payload) /\
     payload = firstn 272 (skipn (19 * 512) blob) /\
     length payload = 272) /\
  strictly_increasing (progress_events (trace r)) = true /\
  List.last (progress_events (trace r)) (0, 0) = (10000, 10000).
Proof.
  intros Hlen Hfuel. change 10000 with (10 * 1000) in *.
  pose proof (accepting_run frame_crc (mkConfig b 512 mr ev) (stream_of blob) v f) as Hrun.
  cbn [frameSize stream_length stream_of] in Hrun. rewrite Hlen in Hrun.
  specialize (Hrun ltac:(lia) ltac:(lia) 20 fuel ltac:(lia) ltac:(lia) ltac:(lia) Hfuel).
  destruct Hrun as (Hph & Hsent & Hfr & Hpr).
  cbv zeta. rewrite Hph, Hsent, Hfr, Hpr.
  split; [reflexivity|]. split; [reflexivity|].
  split; [now rewrite length_map, length_seq|].
  split; [reflexivity|].
  split; [|split].
  - exists (firstn 272 (skipn (19 * 512) blob)).
    change (seq 0 20) with (seq 0 19 ++ [19]).
    rewrite map_app. cbn [map]. rewrite last_last.
    unfold frame_msg, frame_length. cbn [frameSize stream_length stream_of stream_slice map].
    rewrite Hlen.
    change (Nat.min 512 (10 * 1000 - 19 * 512)) with 272.
    repeat split. rewrite length_firstn, length_skipn, Hlen. reflexivity.
  - unfold progress_after. cbn [frameSize stream_length stream_of]. rewrite Hlen.
    vm_compute. reflexivity.
  - unfold progress_after. cbn [frameSize stream_length stream_of]. rewrite Hlen.
    vm_compute. reflexivity.
Qed.

(** *** An image too long for the length field *)

Section UploadProperties.

Variable checksum : list byte -> Z.
Variable encode_field : Z -> list byte.
Variable alignment : nat.
Variable max_ota_length : nat.
Variable max_wired_length : nat.
Variable frame_crc : list byte -> Z.
Variable board_params : Board -> Z * Z * Z.
Variable frame_size : nat.
Variable max_retries : nat.

Local Abbreviation packageOta := (packageOta checksum encode_field alignment max_ota_length).
Local Abbreviation runUploadSession :=
  (runUploadSession checksum encode_field alignment max_ota_length max_wired_length
                    frame_crc board_params frame_size max_retries).

(** C7. An image longer than the OTA length field can hold makes
    [packageOta] fail with InvalidImageError, and an upload of such an
    image ends with that error without a single transport event: the port
    is never opened. *)
Theorem oversized_image_fails_before_open (image : list byte) :
  max_ota_length < length image ->
  (forall la magic, packageOta image la magic = Err InvalidImageError) /\
  (forall fuel config world,
     read_image world (imagePath config) = Some image ->
     runUploadSession fuel config world = Some (Err InvalidImageError, []) /\
     forall events, runUploadSession fuel config world = Some (Err InvalidImageError, events) ->
       ~ opened events).
Proof.
  intros Hlong.
  assert (Hota : forall la magic, packageOta image la magic = Err InvalidImageError).
  { intros la magic. unfold Core.packageOta.
    now replace (max_ota_length <? length image) with true
      by (symmetry; now apply Nat.ltb_lt). }
  split; [exact Hota|].
  intros fuel config world Hread.
  assert (Hrun : runUploadSession fuel config world = Some (Err InvalidImageError, [])).
  { unfold Core.runUploadSession. rewrite Hread.
    destruct (board_params (boardFamily config)) as [[magic la_image] la_blob].
    unfold Core.packageBlob. now rewrite Hota. }
  split; [exact Hrun|].
  intros events Hev. rewrite Hrun in Hev. injection Hev as <-.
  intros (port & baud & Hin). inversion Hin.
Qed.

End UploadProperties.

(** *** A concrete codec and a concrete line, to run the core on *)

(** A 32-bit additive checksum. *)
Definition sum32 (bytes : list byte) : Z :=
  fold_left (fun acc b => ((acc + Z.of_N (Byte.to_N b)) mod 2 ^ 32)%Z) bytes 0%Z.

Definition byte_of_Z (z : Z) : byte :=
  match Byte.of_N (Z.to_N (z mod 256)) with
  | Some b => b
  | None => Byte.x00
  end.

(** A header field as four bytes, least significant first. *)
Definition le32 (z : Z) : list byte :=
  [byte_of_Z z; byte_of_Z (z / 256); byte_of_Z (z / 65536); byte_of_Z (z / 16777216)].

Definition demo_image : list byte := [Byte.x01; Byte.x02; Byte.x03].





(** A world with one image of sixteen bytes, which cannot go into a length
    field that holds at most 8. *)
Definition oversized_world : World :=
  mkWorld (fun _ => Some (repeat Byte.xff 16)) (fun _ => true) (fun _ _ => TimedOut).

Lemma oversized_image_fails_before_open_witness :
  packageOta sum32 le32 4 8 (repeat Byte.xff 16) 0x20000 0xCB = Err InvalidImageError /\
  runUploadSession sum32 le32 4 8 2048 sum32 (fun _ => (0xCB, 0x20000, 0xC000)%Z) 512 4
                   100 (mkUpload "COM3" 115200 "fw.bin" Artemis) oversized_world
    = Some (Err InvalidImageError, []).
Proof.
  pose proof (oversized_image_fails_before_open sum32 le32 4 8 2048 sum32
                (fun _ => (0xCB, 0x20000, 0xC000)%Z) 512 4 (repeat Byte.xff 16)
                ltac:(cbn; lia)) as [Hota Hrun].
  split; [apply Hota|].
  apply (Hrun 100 (mkUpload "COM3" 115200 "fw.bin" Artemis) oversized_world eq_refl).
Defined.

(** The wired blob is the image, its padding and the seven header fields
    of the two containers. *)
Lemma packageBlob_length checksum encode_field alignment max_ota max_wired
    image la magic lb out :
  packageBlob checksum encode_field alignment max_ota max_wired image la magic lb = Ok out ->
  length image <= length out /\
  exists header, length out = header + (length image + padding alignment (length image)).
Proof.
  intros H. apply packageBlob_bytes in H. cbv zeta in H. subst out.
  unfold Core.serializeWired, Core.serializeOta.
  cbn [loadAddressBlob wired_length wired_integrityCode wired_payload
       wired_with_integrity ota_length magicNumber loadAddressImage
       ota_integrityCode ota_payload ota_with_integrity].
  rewrite !length_app, repeat_length. split; [lia|].
  eexists. rewrite !Nat.add_assoc. reflexivity.
Qed.

(** A device that never answers. *)
Definition silent_device : Device := fun _ _ => TimedOut.

Lemma baud_detect_only_short_timeout_witness :
  phase (run sum32 (mkConfig 115200 512 4 None) (stream_of demo_image) silent_device
             2 session_start) = Aborted HandshakeTimeoutError.
Proof.
  apply (proj1 (baud_detect_only_short_timeout sum32 (mkConfig 115200 512 4 None)
                  (stream_of demo_image) silent_device)).
  - intros v f. discriminate.
  - apply le_n.
Defined.

(** A device that reports a CRC failure for every frame it is sent. *)
Definition crc_failing_device : Device :=
  fun n _ =>
    match n with
    | 0 => Received (VersionReport 5 0)
    | 1 => Received SendNextFrame
    | _ => Received ResendPreviousFrame
    end.

Lemma retry_limit_aborts_upload_witness :
  (phase (run sum32 (mkConfig 115200 2 4 None) (stream_of demo_image) crc_failing_device
              9 session_start) = Aborted FrameIntegrityError /\
   length (frames_written
             (trace (run sum32 (mkConfig 115200 2 4 None) (stream_of demo_image)
                         crc_failing_device 9 session_start))) = 5) /\
  phase (run sum32 (mkConfig 115200 2 4 None) (stream_of demo_image) crc_failing_device 5
             (run sum32 (mkConfig 115200 2 4 None) (stream_of demo_image)
                  crc_failing_device 4 session_start)) = Aborted FrameIntegrityError.
Proof.
  pose proof (retry_limit_aborts_upload sum32 (mkConfig 115200 2 4 None)
                (stream_of demo_image) crc_failing_device) as (Hfrom & Hstart & _).
  split.
  - destruct (Hstart 5%Z 0%Z) with (fuel := 9) as (Hphase & _ & Hframes).
    + cbn. lia.
    + cbn. lia.
    + reflexivity.
    + reflexivity.
    + intros [|[|k]] Hk; [lia | lia | reflexivity].
    + cbn. lia.
    + split; [exact Hphase|]. rewrite Hframes. reflexivity.
  - apply (Hfrom (run sum32 (mkConfig 115200 2 4 None) (stream_of demo_image)
                      crc_failing_device 4 session_start)).
    + left. reflexivity.
    + reflexivity.
    + cbn. lia.
    + intros k _. reflexivity.
    + cbn. lia.
Defined.

Lemma upload_10000_bytes_in_512_byte_frames_witness :
  phase (run sum32 (mkConfig 115200 512 4 None) (stream_of (repeat Byte.x5a 10000))
             (accepting_device 5 0 512 10000) 24 session_start) = Done.
Proof.
  apply (upload_10000_bytes_in_512_byte_frames sum32 (repeat Byte.x5a 10000)
           115200 4 None 5 0 24).
  - apply repeat_length.
  - apply le_n.
Defined.

End CoreProofs.

(* ===================================================================== *)
(** ** More properties of the window                                      *)
(* ===================================================================== *)

Module GuiExtraProofs.
Import Gui GuiProofs GuiExtra.

(** *** Refreshing the port list *)

(** Either some port is a CH340, and then there is a first one, or none is. *)
Lemma first_CH340_or_none (ports : list PortInfo) :
  (exists i p, ports !! i = Some p /\ has_CH340 p = true /\
     forall j q, (j < i)%nat -> ports !! j = Some q -> has_CH340 q = false)
  \/ (forall q, q ∈ ports -> has_CH340 q = false).
Proof.
  induction ports as [|p ports IH].
  - right. intros q Hq. inversion Hq.
  - destruct (has_CH340 p) eqn:Hp.
    + left. exists 0%nat, p. repeat split; auto. intros j q Hj. lia.
    + destruct IH as [(i & p' & Hi & Hp' & Hfirst) | Hnone].
      * left. exists (S i), p'. repeat split; auto.
        intros [|j] q Hj Hq; cbn in Hq.
        -- now injection Hq as <-.
        -- apply (Hfirst j); [lia | exact Hq].
      * right. intros q Hq. apply elem_of_cons in Hq as [-> | Hq]; auto.
Qed.

(** Adding rows to an empty combobox leaves row 0 current. *)
Lemma scan_combo_first prev ports s :
  cb_items (scan_combo s) = [] -> ports <> [] ->
  cb_index (scan_combo (scan_all prev ports s)) = 0.
Proof.
  intros Hempty Hne. destruct ports as [|p ports]; [congruence|].
  rewrite scan_all_cons.
  assert (Hkeep : forall ps t, cb_items (scan_combo t) <> [] ->
            cb_index (scan_combo (scan_all prev ps t)) = cb_index (scan_combo t)).
  { induction ps as [|q ps IH]; intros t Ht; [reflexivity|].
    rewrite scan_all_cons, IH.
    - cbn. destruct (cb_items (scan_combo t)); [congruence|reflexivity].
    - cbn. destruct (cb_items (scan_combo t)); discriminate. }
  rewrite Hkeep.
  - cbn. now rewrite Hempty.
  - cbn. rewrite Hempty. discriminate.
Qed.

(** The three ways [update_com_ports] can end. *)
Inductive refresh_outcome (ports : list PortInfo) (w w' : MainWindow) : Prop :=
| picked_CH340 i p :
    ports !! i = Some p -> has_CH340 p = true ->
    (forall j q, (j < i)%nat -> ports !! j = Some q -> has_CH340 q = false) ->
    cb_index (port_combobox w') = Z.of_nat i ->
    port w' = PyStr (systemLocation p) ->
    refresh_outcome ports w w'
| restored_previous i q :
    (forall q, q ∈ ports -> has_CH340 q = false) ->
    ports !! i = Some q -> PyStr (systemLocation q) = port w ->
    cb_index (port_combobox w') = Z.of_nat i ->
    port w' = port w ->
    refresh_outcome ports w w'
| fell_back :
    (forall q, q ∈ ports -> has_CH340 q = false) ->
    (forall q, q ∈ ports -> PyStr (systemLocation q) <> port w) ->
    cb_index (port_combobox w') = (match ports with [] => -1 | _ :: _ => 0 end) ->
    port w' = (match ports with [] => PyNone | q :: _ => PyStr (systemLocation q) end) ->
    refresh_outcome ports w w'.

Lemma update_com_ports_outcome (ports : list PortInfo) (w : MainWindow) :
  cb_items (port_combobox (update_com_ports ports w)) = map port_row ports /\
  refresh_outcome ports w (update_com_ports ports w).
Proof.
  pose proof (port_unfold (update_com_ports ports w)) as Hport.
  pose proof (update_com_ports_combobox ports w) as Hcb.
  rewrite Hcb in Hport. cbv zeta in Hcb, Hport.
  set (s0 := mkScan (cb_clear (port_combobox w)) 0 (-1) (-1)) in *.
  set (s := scan_all (port w) ports s0) in *.
  assert (Hitems : cb_items (scan_combo s) = map port_row ports)
    by (subst s; now rewrite scan_items_final).
  split.
  { rewrite Hcb. destruct (-1 <? indexOfCH340 s), (-1 <? indexOfPrevious s);
      rewrite ?setCurrentIndex_items; exact Hitems. }
  destruct (first_CH340_or_none ports) as [(i & p & Hi & Hp & Hfirst) | Hnone].
  - assert (Hch : indexOfCH340 s = Z.of_nat i).
    { subst s. rewrite (scan_CH340_first _ _ _ i p); cbn; auto; lia. }
    rewrite Hch in Hcb, Hport.
    replace (-1 <? Z.of_nat i) with true in Hcb, Hport by (symmetry; apply Z.ltb_lt; lia).
    destruct (currentData_setCurrentIndex
                (if -1 <? indexOfPrevious s
                 then cb_setCurrentIndex (indexOfPrevious s) (scan_combo s)
                 else scan_combo s) i (longname (description p) (portName p))
                (PyStr (systemLocation p))) as [Hidx Hdata].
    { destruct (-1 <? indexOfPrevious s); rewrite ?setCurrentIndex_items, Hitems;
        now apply port_row_lookup. }
    apply (picked_CH340 _ _ _ i p); auto; congruence.
  - assert (Hch : indexOfCH340 s = -1) by (subst s; now rewrite scan_CH340_none).
    rewrite Hch in Hcb, Hport. change (-1 <? -1) with false in Hcb, Hport.
    cbv iota in Hcb, Hport.
    destruct (scan_previous (port w) ports s0) as [[Hsame Habsent] | (i & q & Hi & Hq & Hfin)].
    + cbn. lia.
    + fold s in Hsame. cbn [s0 indexOfPrevious] in Hsame. rewrite Hsame in Hcb, Hport.
      change (-1 <? -1) with false in Hcb, Hport. cbv iota in Hcb, Hport.
      apply fell_back; auto.
      * rewrite Hcb. destruct ports as [|q ports].
        -- reflexivity.
        -- subst s. apply scan_combo_first; [reflexivity | discriminate].
      * rewrite Hport. unfold cb_currentData.
        destruct ports as [|q ports]; [reflexivity|].
        replace (cb_index (scan_combo s)) with 0
          by (symmetry; subst s; apply scan_combo_first; [reflexivity | discriminate]).
        rewrite Hitems. reflexivity.
    + fold s in Hfin. cbn [s0 scan_index] in Hfin. rewrite Z.add_0_l in Hfin.
      rewrite Hfin in Hcb, Hport.
      replace (-1 <? Z.of_nat i) with true in Hcb, Hport by (symmetry; apply Z.ltb_lt; lia).
      destruct (currentData_setCurrentIndex (scan_combo s) i
                  (longname (description q) (portName q)) (PyStr (systemLocation q)))
        as [Hidx Hdata].
      { rewrite Hitems. now apply port_row_lookup. }
      apply (restored_previous _ _ _ i q); auto; congruence.
Qed.

(** X1. After a refresh the selection is always usable: with at least one
    port available the selected port is the system location of one of
    them, sitting on the current row, and [verify_port] accepts it against
    the same list; with no port available nothing is selected and
    [verify_port] refuses. *)
Theorem update_com_ports_selection_valid (env : Env) (w : MainWindow) :
  let w' := update_com_ports (availablePorts env) w in
  (availablePorts env <> [] ->
     (exists i q, availablePorts env !! i = Some q /\
        cb_index (port_combobox w') = Z.of_nat i /\
        port w' = PyStr (systemLocation q)) /\
     verify_port env (port w') = true) /\
  (availablePorts env = [] ->
     cb_items (port_combobox w') = [] /\ port w' = PyNone /\
     verify_port env (port w') = false).
Proof.
  cbv zeta. destruct (update_com_ports_outcome (availablePorts env) w) as [Hitems Hout].
  split.
  - intros Hne.
    assert (Hsel : exists i q, availablePorts env !! i = Some q /\
              cb_index (port_combobox (update_com_ports (availablePorts env) w)) = Z.of_nat i /\
              port (update_com_ports (availablePorts env) w) = PyStr (systemLocation q)).
    { destruct Hout as [i p Hi _ _ Hidx Hp | i q _ Hi Hq Hidx Hp | _ _ Hidx Hp].
      - exists i, p. auto.
      - exists i, q. repeat split; auto. congruence.
      - destruct (availablePorts env) as [|q ports]; [congruence|].
        exists 0%nat, q. auto. }
    split; [exact Hsel|].
    destruct Hsel as (i & q & Hi & _ & Hp).
    apply verify_port_spec. exists q. split; [|exact Hp].
    apply list_elem_of_lookup. eauto.
  - intros Hempty. rewrite Hempty in *. cbn in Hitems.
    assert (Hp : port (update_com_ports [] w) = PyNone).
    { destruct Hout as [i p Hi | i q _ Hi | _ _ _ Hp]; try discriminate Hi. exact Hp. }
    repeat split; auto. rewrite Hp. unfold verify_port. now rewrite Hempty.
Qed.

(** X2. With no CH340 among the ports and the port selected before no
    longer listed (or none selected before), the refresh selects the first
    port of the list. *)
Theorem update_com_ports_falls_back_to_first (q : PortInfo) (rest : list PortInfo)
    (w : MainWindow) :
  (forall p, p ∈ q :: rest -> has_CH340 p = false) ->
  (forall p, p ∈ q :: rest -> PyStr (systemLocation p) <> port w) ->
  cb_index (port_combobox (update_com_ports (q :: rest) w)) = 0 /\
  port (update_com_ports (q :: rest) w) = PyStr (systemLocation q).
Proof.
  intros Hnone Habsent.
  destruct (update_com_ports_outcome (q :: rest) w) as [_ Hout].
  destruct Hout as [i p Hi Hp _ _ _ | i p _ Hi Hq _ _ | _ _ Hidx Hport].
  - rewrite Hnone in Hp; [discriminate|]. apply list_elem_of_lookup. eauto.
  - exfalso. apply (Habsent p); [|exact Hq]. apply list_elem_of_lookup. eauto.
  - now split.
Qed.

Lemma refresh_selects_listed_port ports w w' :
  refresh_outcome ports w w' -> ports <> [] ->
  exists q, q ∈ ports /\ port w' = PyStr (systemLocation q).
Proof.
  intros [i p Hi _ _ _ Hp | i q _ Hi Hq _ Hp | _ _ _ Hp] Hne.
  - exists p. split; [apply list_elem_of_lookup; eauto | exact Hp].
  - exists q. split; [apply list_elem_of_lookup; eauto | congruence].
  - destruct ports as [|q ports]; [congruence|].
    exists q. split; [apply list_elem_of_here | exact Hp].
Qed.

(** X3. Refreshing twice against the same list of ports selects the same
    port as refreshing once: the second refresh finds the port the first
    one chose. *)
Theorem update_com_ports_twice (ports : list PortInfo) (w : MainWindow) :
  port (update_com_ports ports (update_com_ports ports w)) =
  port (update_com_ports ports w).
Proof.
  destruct (update_com_ports_outcome ports w) as [_ Hfirst].
  destruct (update_com_ports_outcome ports (update_com_ports ports w)) as [_ Hsecond].
  destruct Hsecond as [i p Hi Hp Hbefore _ Hport | i q _ _ _ _ Hport | Hnone Habsent _ Hport].
  - rewrite Hport.
    destruct Hfirst as [i' p' Hi' Hp' Hbefore' _ Hport' | i' q Hnone Hi' _ _ _ | Hnone _ _ _].
    + destruct (Nat.lt_trichotomy i i') as [Hlt | [-> | Hgt]].
      * rewrite (Hbefore' i p Hlt Hi) in Hp. discriminate.
      * rewrite Hi in Hi'. injection Hi' as <-. now rewrite Hport'.
      * rewrite (Hbefore i' p' Hgt Hi') in Hp'. discriminate.
    + rewrite Hnone in Hp; [discriminate|]. apply list_elem_of_lookup. eauto.
    + rewrite Hnone in Hp; [discriminate|]. apply list_elem_of_lookup. eauto.
  - exact Hport.
  - destruct ports as [|q0 ports].
    + rewrite Hport.
      destruct Hfirst as [i p Hi | i q _ Hi | _ _ _ Hp]; try discriminate Hi.
      now rewrite Hp.
    + exfalso.
      destruct (refresh_selects_listed_port _ _ _ Hfirst) as (q & Hq & Hp); [discriminate|].
      apply (Habsent q Hq). now rewrite Hp.
Qed.

(** *** The console *)

(** [k] backspace characters. *)
Fixpoint backspaces (k : nat) : string :=
  match k with
  | O => ""
  | S k' => String backspace (backspaces k')
  end.

(** A text of ASCII characters: each is one byte and one code point, so
    that [String.length] is Python's [len] and [deletePreviousChar] takes
    what Qt takes. *)
Fixpoint ascii_text (s : string) : bool :=
  match s with
  | EmptyString => true
  | String c rest => (nat_of_ascii c <? 128)%nat && ascii_text rest
  end.

(** Whether a carriage return occurs in a text. *)
Fixpoint has_return (s : string) : bool :=
  match s with
  | EmptyString => false
  | String c rest => Ascii.eqb c carriage_return || has_return rest
  end.

(** Without a carriage return the text goes into the document as it is. *)
Lemma line_breaks_no_return (s : string) :
  has_return s = false -> line_breaks s = s.
Proof.
  induction s as [|c s IH]; [reflexivity|].
  cbn [has_return line_breaks]. intros H. apply orb_false_iff in H as [Hc Hs].
  rewrite Hc. now rewrite IH.
Qed.

Lemma string_app_assoc (a b c : string) : (a +:+ b) +:+ c = a +:+ (b +:+ c).
Proof.
  induction a as [|x a IH]; [reflexivity|].
  change (String x ((a +:+ b) +:+ c) = String x (a +:+ (b +:+ c))). now rewrite IH.
Qed.

Lemma string_app_nil_r (a : string) : a +:+ "" = a.
Proof.
  induction a as [|x a IH]; [reflexivity|].
  change (String x (a +:+ "") = String x a). now rewrite IH.
Qed.

Lemma string_app_length (a b : string) :
  String.length (a +:+ b) = (String.length a + String.length b)%nat.
Proof.
  induction a as [|x a IH]; [reflexivity|].
  change (S (String.length (a +:+ b)) = S (String.length a + String.length b)).
  now rewrite IH.
Qed.

Lemma deletePreviousChar_snoc (t : string) (c : ascii) :
  deletePreviousChar (t +:+ String c "") = t.
Proof.
  induction t as [|a t IH]; [reflexivity|].
  destruct t as [|b t]; [reflexivity|].
  change (String a (deletePreviousChar (String b t +:+ String c "")) =
          String a (String b t)).
  now rewrite IH.
Qed.

Lemma deletePreviousChar_length (t : string) :
  String.length (deletePreviousChar t) = (String.length t - 1)%nat.
Proof.
  induction t as [|a t IH]; [reflexivity|].
  destruct t as [|b t]; [reflexivity|].
  change (deletePreviousChar (String a (String b t)))
    with (String a (deletePreviousChar (String b t))).
  cbn [String.length]. rewrite IH. cbn [String.length]. lia.
Qed.

(** Deleting as many characters as a suffix has removes the suffix. *)
Lemma erase_suffix (u t : string) :
  Nat.iter (String.length u) deletePreviousChar (t +:+ u) = t.
Proof.
  revert t. induction u as [|c u IH]; intros t.
  - cbn [String.length Nat.iter]. apply string_app_nil_r.
  - replace (t +:+ String c u) with ((t +:+ String c "") +:+ u)
      by (now rewrite string_app_assoc).
    cbn [String.length]. rewrite Nat.iter_succ, IH. apply deletePreviousChar_snoc.
Qed.

(** Deleting at least as many characters as there are leaves nothing. *)
Lemma erase_all (k : nat) (t : string) :
  (String.length t <= k)%nat -> Nat.iter k deletePreviousChar t = "".
Proof.
  intros Hk.
  assert (Hlen : forall n x, String.length (Nat.iter n deletePreviousChar x)
                             = (String.length x - n)%nat).
  { induction n as [|n IH]; intros x; [cbn; lia|].
    rewrite Nat.iter_succ, deletePreviousChar_length, IH. lia. }
  specialize (Hlen k t).
  destruct (Nat.iter k deletePreviousChar t); [reflexivity|]. cbn in Hlen. lia.
Qed.

Lemma strip_leading_backspaces (k : nat) (rest text : string) :
  (2 <= String.length rest)%nat ->
  (forall r, rest <> String backspace r) ->
  strip_backspaces (backspaces k +:+ rest) text =
    (rest, Nat.iter k deletePreviousChar text).
Proof.
  intros Hlen Hstart. revert text. induction k as [|k IH]; intros text.
  - change (backspaces 0 +:+ rest) with rest.
    change (Nat.iter 0 deletePreviousChar text) with text.
    destruct rest as [|c r]; [cbn in Hlen; lia|].
    assert (Hc : Ascii.eqb c backspace = false).
    { apply Ascii.eqb_neq. intros ->. now apply (Hstart r). }
    cbn [strip_backspaces]. now rewrite Hc, andb_false_r.
  - change (backspaces (S k) +:+ rest) with (String backspace (backspaces k +:+ rest)).
    cbn [strip_backspaces].
    replace (2 <? String.length (String backspace (backspaces k +:+ rest)))%nat with true.
    + rewrite Ascii.eqb_refl. cbn [andb]. rewrite IH, Nat.iter_succ_r. reflexivity.
    + symmetry. apply Nat.ltb_lt. cbn [String.length]. rewrite string_app_length. lia.
Qed.

(** X4. For ASCII text: a message that starts with [k] backspaces,
    followed by at least two characters that do not start with a backspace,
    erases the last [k] characters of the console and inserts the rest,
    with a line break where the rest has a carriage return, and as it is
    when it has none; a console of at most [k] characters is emptied first.
    Nothing else in the window changes. *)
Theorem log_message_backspaces_erase (k : nat) (rest : string) (w : MainWindow) :
  (2 <= String.length rest)%nat ->
  (forall r, rest <> String backspace r) ->
  ascii_text rest = true ->
  (forall t u, messages w = t +:+ u -> String.length u = k -> ascii_text u = true ->
     log_message (backspaces k +:+ rest) w = set_messages (t +:+ line_breaks rest) w /\
     (has_return rest = false ->
        log_message (backspaces k +:+ rest) w = set_messages (t +:+ rest) w)) /\
  ((String.length (messages w) <= k)%nat ->
     log_message (backspaces k +:+ rest) w = set_messages (line_breaks rest) w).
Proof.
  intros Hlen Hstart _. unfold log_message.
  rewrite (strip_leading_backspaces k rest (messages w) Hlen Hstart).
  unfold insertPlainText. split.
  - intros t u Hw Hu _. rewrite Hw, <- Hu, erase_suffix.
    split; [reflexivity|]. intros Hret. now rewrite line_breaks_no_return.
  - intros Hshort. rewrite erase_all by exact Hshort. reflexivity.
Qed.

(** X5. For ASCII text: a message of at most two characters erases
    nothing, also when it consists of backspaces, since the loop only
    strips a backspace from a message longer than two characters. The
    message is inserted at the end, with a line break for a carriage
    return, and as it is when it has none. *)
Theorem log_message_short_verbatim (msg : string) (w : MainWindow) :
  (String.length msg <= 2)%nat ->
  ascii_text msg = true ->
  log_message msg w = set_messages (messages w +:+ line_breaks msg) w /\
  (has_return msg = false ->
     log_message msg w = set_messages (messages w +:+ msg) w).
Proof.
  intros Hlen _.
  assert (Hlog : log_message msg w = set_messages (messages w +:+ line_breaks msg) w).
  { unfold log_message.
    destruct msg as [|a [|b [|c r]]]; cbn in Hlen; try lia; reflexivity. }
  split; [exact Hlog|].
  intros Hret. now rewrite Hlog, line_breaks_no_return.
Qed.

(** *** The window at startup *)

(** The window [__init__] builds before it consults the ports and the
    settings. *)
Definition blank_window : MainWindow :=
  mkWindow "artemis_svl.bin" 0xC000 0x20000 0xCB
           "" cb_new cb_new false false "" "" false false [].

(** The port combobox right after the first [update_com_ports]. *)
Definition startup_ports (env : Env) : QComboBox :=
  port_combobox (update_com_ports (availablePorts env) blank_window).

(** The combobox after [_load_settings] looked for a stored value. *)
Definition select_stored (stored : option PyVal) (cb : QComboBox) : QComboBox :=
  match stored with
  | Some v => if -1 <? cb_findData v cb
              then cb_setCurrentIndex (cb_findData v cb) cb else cb
  | None => cb
  end.

Ltac window_fields :=
  unfold cb_findData, cb_addItem, cb_clear in *;
  cbn [port_combobox baud_combobox fileLocation_lineedit artemis apollo3
       upload_btn_disabled updateBootloader_btn_disabled messages statusBar
       worker_jobs appFile magic_num load_address_image load_address_blob
       set_fileLocation set_port_combobox set_baud_combobox set_board
       set_messages set_statusBar set_buttons add_job update_baud_rates
       cb_addItem cb_clear cb_items cb_index app] in *.

Ltac split_ifs :=
  repeat (window_fields;
          match goal with
          | |- context [if ?c then _ else _] => destruct c eqn:?
          end);
  window_fields.

Ltac open_init env s :=
  unfold MainWindow_init, _load_settings;
  fold blank_window;
  set (w1 := update_com_ports (availablePorts env) blank_window);
  destruct s as [[pn|] [fl|] [br|] [ar|]];
  cbn [setting_port_name setting_file_location setting_baud_rate setting_artemis].

Lemma init_port_combobox env s :
  port_combobox (MainWindow_init env s) =
  select_stored (setting_port_name s) (startup_ports env).
Proof.
  unfold startup_ports, select_stored. open_init env s; split_ifs; try reflexivity; try discriminate; congruence.
Qed.

Lemma init_baud_combobox env s :
  baud_combobox (MainWindow_init env s) =
  select_stored (setting_baud_rate s) (mkCombo baud_rows 0).
Proof.
  unfold select_stored, baud_rows. open_init env s; split_ifs; try reflexivity; try discriminate; congruence.
Qed.

Lemma init_board env s :
  artemis (MainWindow_init env s) =
    match setting_artemis s with
    | Some v => py_eq v (PyStr "True")
    | None => true
    end /\
  apollo3 (MainWindow_init env s) = negb (artemis (MainWindow_init env s)).
Proof.
  open_init env s; split_ifs; split; try reflexivity; try discriminate; congruence.
Qed.

Lemma init_file env s :
  fileLocation_lineedit (MainWindow_init env s) =
    match setting_file_location s with
    | Some f => f
    | None => ""
    end.
Proof.
  open_init env s; split_ifs; try reflexivity; try discriminate; congruence.
Qed.

Lemma init_chrome env s :
  appFile (MainWindow_init env s) = "artemis_svl.bin" /\
  upload_btn_disabled (MainWindow_init env s) = false /\
  updateBootloader_btn_disabled (MainWindow_init env s) = false /\
  worker_jobs (MainWindow_init env s) = [] /\
  messages (MainWindow_init env s) = "".
Proof.
  open_init env s; split_ifs; repeat split.
Qed.

(** [findData] returns [-1] when no row carries the data, and otherwise the
    index of a row that does. *)
Lemma findData_from_spec (items : list (string * PyVal)) (k : Z) (d : PyVal) :
  (findData_from k d items = -1 /\ forall t, (t, d) ∉ items) \/
  (exists i t, findData_from k d items = k + Z.of_nat i /\ items !! i = Some (t, d)).
Proof.
  revert k. induction items as [|[t0 d0] items IH]; intros k.
  - left. split; [reflexivity|]. intros t Ht. inversion Ht.
  - cbn [findData_from]. unfold py_eq. case_bool_decide as Heq.
    + right. exists 0%nat, t0. subst d0. split; [lia | reflexivity].
    + destruct (IH (k + 1)) as [[Hnone Habsent] | (i & t & Hi & Hrow)].
      * left. split; [exact Hnone|]. intros t Ht.
        apply elem_of_cons in Ht as [Ht | Ht]; [congruence | now apply (Habsent t)].
      * right. exists (S i), t. split; [lia | exact Hrow].
Qed.

Lemma select_stored_found (cb : QComboBox) (d : PyVal) t :
  (t, d) ∈ cb_items cb -> cb_currentData (select_stored (Some d) cb) = d.
Proof.
  intros Hin. unfold select_stored, cb_findData.
  destruct (findData_from_spec (cb_items cb) 0 d) as [[_ Habsent] | (i & t' & Hi & Hrow)].
  - now contradiction (Habsent t).
  - rewrite Hi, Z.add_0_l.
    replace (-1 <? Z.of_nat i) with true by (symmetry; apply Z.ltb_lt; lia).
    now apply (currentData_setCurrentIndex cb i t' d).
Qed.

Lemma select_stored_absent (cb : QComboBox) (d : PyVal) :
  (forall t, (t, d) ∉ cb_items cb) -> select_stored (Some d) cb = cb.
Proof.
  intros Habsent. unfold select_stored, cb_findData.
  destruct (findData_from_spec (cb_items cb) 0 d) as [[Hnone _] | (i & t & _ & Hrow)].
  - now rewrite Hnone.
  - exfalso. apply (Habsent t). apply list_elem_of_lookup. eauto.
Qed.

Lemma startup_ports_items env :
  cb_items (startup_ports env) = map port_row (availablePorts env).
Proof. apply update_com_ports_outcome. Qed.

Lemma port_row_elem (ports : list PortInfo) t (d : PyVal) :
  (t, d) ∈ map port_row ports <->
  exists q, q ∈ ports /\ t = longname (description q) (portName q) /\
            d = PyStr (systemLocation q).
Proof.
  induction ports as [|p ports IH]; cbn [map].
  - split; [intros H; inversion H | intros (q & Hq & _); inversion Hq].
  - rewrite elem_of_cons, IH. split.
    + intros [Heq | (q & Hq & Ht & Hd)].
      * injection Heq as -> ->. exists p. repeat split. apply list_elem_of_here.
      * exists q. repeat split; auto. now apply list_elem_of_further.
    + intros (q & Hq & Ht & Hd). apply elem_of_cons in Hq as [-> | Hq].
      * left. now subst.
      * right. exists q. auto.
Qed.

(** X9. At startup a stored port that is still available is selected, also
    when a CH340 port is listed: [_load_settings] runs after the first
    [update_com_ports]. A stored port that is gone, or no stored port,
    leaves the choice of that first refresh. *)
Theorem stored_port_selected_at_startup (env : Env) (s : Settings) :
  (forall q, setting_port_name s = Some (PyStr (systemLocation q)) ->
     q ∈ availablePorts env ->
     port (MainWindow_init env s) = PyStr (systemLocation q)) /\
  (forall v, setting_port_name s = Some v ->
     (forall q, q ∈ availablePorts env -> PyStr (systemLocation q) <> v) ->
     port (MainWindow_init env s) =
       port (update_com_ports (availablePorts env) blank_window)) /\
  (setting_port_name s = None ->
     port (MainWindow_init env s) =
       port (update_com_ports (availablePorts env) blank_window)).
Proof.
  rewrite port_unfold, init_port_combobox. split; [|split].
  - intros q Hs Hq. rewrite Hs.
    apply (select_stored_found _ _ (longname (description q) (portName q))).
    rewrite startup_ports_items. apply port_row_elem. exists q. auto.
  - intros v Hs Habsent. rewrite Hs, select_stored_absent; [reflexivity|].
    intros t Ht. rewrite startup_ports_items in Ht.
    apply port_row_elem in Ht as (q & Hq & _ & Hd). now apply (Habsent q).
  - intros Hs. now rewrite Hs.
Qed.

(** X11. At startup the baud rate is 115200, the first row, unless the
    settings hold one of the three offered rates, which is then selected; a
    stored number that is not offered is ignored. *)
Theorem baud_rate_at_startup (env : Env) (s : Settings) :
  (setting_baud_rate s = None -> baudRate (MainWindow_init env s) = PyInt 115200) /\
  (forall b, setting_baud_rate s = Some (PyInt b) -> b ∈ allowed_bauds ->
     baudRate (MainWindow_init env s) = PyInt b) /\
  (forall b, setting_baud_rate s = Some (PyInt b) -> b ∉ allowed_bauds ->
     baudRate (MainWindow_init env s) = PyInt 115200).
Proof.
  unfold baudRate. rewrite init_baud_combobox. split; [|split].
  - intros ->. reflexivity.
  - intros b -> Hb.
    apply (select_stored_found (mkCombo baud_rows 0) (PyInt b)
             (if b =? 115200 then "115200" else if b =? 460800 then "460800" else "921600")).
    unfold allowed_bauds in Hb. cbn [cb_items baud_rows].
    repeat (apply elem_of_cons in Hb as [-> | Hb]; [cbn; repeat constructor|]).
    inversion Hb.
  - intros b -> Hb. rewrite select_stored_absent; [reflexivity|].
    intros t Ht. cbn [cb_items baud_rows] in Ht. apply Hb. unfold allowed_bauds.
    repeat (apply elem_of_cons in Ht as [Ht | Ht];
            [injection Ht as _ <-; repeat constructor|]).
    inversion Ht.
Qed.

(** *** What stays true while the window is used *)

(** The bootloader file name never changes, the two buttons are enabled or
    disabled together, and exactly one board family is checked. *)
Record chrome_inv (w : MainWindow) : Prop := mkChrome {
  chrome_appFile : appFile w = "artemis_svl.bin";
  chrome_buttons : updateBootloader_btn_disabled w = upload_btn_disabled w;
  chrome_board : apollo3 w = negb (artemis w)
}.

Lemma chrome_log_message msg w : chrome_inv w -> chrome_inv (log_message msg w).
Proof.
  intros [? ? ?]. unfold log_message.
  destruct (strip_backspaces msg (messages w)). now constructor.
Qed.

Lemma chrome_dispatch e w : chrome_inv w -> chrome_inv (dispatch e w).
Proof.
  intros Hw. pose proof Hw as [Ha Hb Hc].
  destruct e as [env|i|i|b|f|env|env|msg|status]; cbn [dispatch].
  - now constructor.
  - now constructor.
  - now constructor.
  - destruct b; now constructor.
  - unfold on_browse_btn_pressed. case_bool_decide; now constructor.
  - destruct (upload_btn_disabled w); [exact Hw|].
    unfold on_upload_btn_pressed.
    destruct (negb (verify_port env (port w))); [now apply chrome_log_message|].
    destruct (negb (os_path_exists env (fileLocation_lineedit w)));
      [now apply chrome_log_message | now constructor].
  - destruct (updateBootloader_btn_disabled w); [exact Hw|].
    unfold on_update_bootloader_btn_pressed.
    destruct (negb (verify_port env (port w))); [now apply chrome_log_message|].
    destruct (negb (os_path_exists env (resource_path env (appFile w))));
      [now apply chrome_log_message | now constructor].
  - now apply chrome_log_message.
  - now constructor.
Qed.

Lemma chrome_init env s : chrome_inv (MainWindow_init env s).
Proof.
  destruct (init_chrome env s) as (Ha & Hu & Hb & _).
  destruct (init_board env s) as [_ Hboard].
  constructor; congruence.
Qed.

Lemma reachable_chrome w : reachable w -> chrome_inv w.
Proof.
  induction 1 as [env s | e w _ IH]; [apply chrome_init | now apply chrome_dispatch].
Qed.

(** X10. Exactly one board family is checked in every window the
    application can show. At startup it is Artemis, unless the settings
    hold a value other than the text True, which selects Apollo3. *)
Theorem board_selection_exclusive :
  (forall w, reachable w -> apollo3 w = negb (artemis w)) /\
  (forall env s,
     selected_board (MainWindow_init env s) =
       match setting_artemis s with
       | None => Artemis
       | Some v => if bool_decide (v = PyStr "True") then Artemis else Apollo3
       end).
Proof.
  split.
  - intros w Hw. now destruct (reachable_chrome w Hw).
  - intros env s. unfold selected_board.
    destruct (init_board env s) as [-> _].
    destruct (setting_artemis s) as [v|]; [|reflexivity].
    unfold py_eq. now case_bool_decide.
Qed.



(** *** One job at a time *)

Lemma run_events_app evs1 evs2 w :
  run_events (evs1 ++ evs2) w = run_events evs2 (run_events evs1 w).
Proof. unfold run_events. apply fold_left_app. Qed.

(** The jobs submitted so far, against the jobs reported finished. *)
Definition one_at_a_time (w : MainWindow) (finished : nat) : Prop :=
  updateBootloader_btn_disabled w = upload_btn_disabled w /\
  (length (worker_jobs w) <= finished + (if upload_btn_disabled w then 1 else 0))%nat.

Lemma one_at_a_time_log msg w n : one_at_a_time w n -> one_at_a_time (log_message msg w) n.
Proof.
  intros H. unfold log_message. now destruct (strip_backspaces msg (messages w)).
Qed.

Lemma one_at_a_time_dispatch e w n :
  one_at_a_time w n ->
  one_at_a_time (dispatch e w) (n + finished_count [e]).
Proof.
  intros Hw. pose proof Hw as [Hb Hj].
  destruct e as [env|i|i|b|f|env|env|msg|status]; cbn [dispatch finished_count];
    rewrite ?Nat.add_0_r.
  - exact Hw.
  - exact Hw.
  - exact Hw.
  - destruct b; exact Hw.
  - unfold on_browse_btn_pressed. case_bool_decide; exact Hw.
  - destruct (upload_btn_disabled w) eqn:Hdis; [unfold one_at_a_time; now rewrite Hdis|].
    unfold on_upload_btn_pressed.
    destruct (negb (verify_port env (port w)));
      [apply one_at_a_time_log; unfold one_at_a_time; now rewrite Hdis|].
    destruct (negb (os_path_exists env (fileLocation_lineedit w)));
      [apply one_at_a_time_log; unfold one_at_a_time; now rewrite Hdis|].
    split; cbn; [reflexivity|]. rewrite length_app. cbn. lia.
  - rewrite Hb. destruct (upload_btn_disabled w) eqn:Hdis;
      [unfold one_at_a_time; now rewrite Hdis|].
    unfold on_update_bootloader_btn_pressed.
    destruct (negb (verify_port env (port w)));
      [apply one_at_a_time_log; unfold one_at_a_time; now rewrite Hdis|].
    destruct (negb (os_path_exists env (resource_path env (appFile w))));
      [apply one_at_a_time_log; unfold one_at_a_time; now rewrite Hdis|].
    split; cbn; [reflexivity|]. rewrite length_app. cbn. lia.
  - now apply one_at_a_time_log.
  - split; cbn; [reflexivity|]. destruct (upload_btn_disabled w); lia.
Qed.

Lemma finished_count_app evs1 evs2 :
  finished_count (evs1 ++ evs2) = (finished_count evs1 + finished_count evs2)%nat.
Proof.
  induction evs1 as [|e evs1 IH]; [reflexivity|].
  destruct e; cbn; rewrite IH; reflexivity.
Qed.

Lemma one_at_a_time_run evs : forall w n,
  one_at_a_time w n -> one_at_a_time (run_events evs w) (n + finished_count evs).
Proof.
  induction evs as [|e evs IH]; intros w n Hw.
  - cbn. now rewrite Nat.add_0_r.
  - change (e :: evs) with ([e] ++ evs).
    rewrite run_events_app, finished_count_app, Nat.add_assoc.
    apply IH. now apply one_at_a_time_dispatch.
Qed.

(** X7. However the window is used, at most one job is outstanding: the
    jobs submitted never exceed the jobs the worker reported finished by
    more than one, and not at all while the buttons are enabled. A press
    while the buttons are disabled changes nothing. *)
Theorem one_job_at_a_time (env : Env) (s : Settings) (evs : list GuiEvent) :
  let w := run_events evs (MainWindow_init env s) in
  (length (worker_jobs w) <= S (finished_count evs))%nat /\
  (upload_btn_disabled w = false ->
     (length (worker_jobs w) <= finished_count evs)%nat) /\
  updateBootloader_btn_disabled w = upload_btn_disabled w /\
  (upload_btn_disabled w = true ->
     forall env', dispatch (UploadPressed env') w = w /\
                  dispatch (UpdateBootloaderPressed env') w = w).
Proof.
  cbv zeta.
  assert (H0 : one_at_a_time (MainWindow_init env s) 0).
  { destruct (init_chrome env s) as (_ & Hu & Hb & Hj & _).
    unfold one_at_a_time. rewrite Hu, Hb, Hj. split; [reflexivity | cbn; lia]. }
  destruct (one_at_a_time_run evs _ _ H0) as [Hb Hj]. cbn [Nat.add] in Hj.
  split; [|split; [|split]].
  - destruct (upload_btn_disabled _); lia.
  - intros Hen. rewrite Hen in Hj. lia.
  - exact Hb.
  - intros Hdis env'. cbn [dispatch]. rewrite Hb, Hdis. now split.
Qed.

(** *** A finished job, a browsed file *)

Lemma upload_pressed_ready env (w : MainWindow) :
  upload_btn_disabled w = false ->
  upload_ready env w ->
  dispatch (UploadPressed env) w =
    disable_interface true
      (add_job (upload_job w (fileLocation_lineedit w) AUxArtemisUploadFirware) w).
Proof.
  intros Hen [Hport Hfile]. apply verify_port_spec in Hport.
  cbn [dispatch]. rewrite Hen. unfold on_upload_btn_pressed.
  now rewrite Hport, Hfile.
Qed.

(** X14. When the worker reports a job as finished, both buttons are
    enabled again, whatever the window was before, and the status bar says
    successfully exactly for status 0. A press of Upload Firmware with a
    usable port and file then submits a job built from the port, baud rate
    and file the window had all along. *)
Theorem on_finished_unlocks_upload (env : Env) (status : Z) (w : MainWindow) :
  let w1 := dispatch (WorkerFinished status) w in
  upload_btn_disabled w1 = false /\
  updateBootloader_btn_disabled w1 = false /\
  (statusBar w1 = "The upload process finished successfully" <-> status = 0) /\
  (upload_ready env w ->
     worker_jobs (dispatch (UploadPressed env) w1) =
       worker_jobs w ++
         [upload_job w (fileLocation_lineedit w) AUxArtemisUploadFirware] /\
     upload_btn_disabled (dispatch (UploadPressed env) w1) = true /\
     updateBootloader_btn_disabled (dispatch (UploadPressed env) w1) = true).
Proof.
  cbv zeta. split; [reflexivity|]. split; [reflexivity|]. split.
  - cbn [dispatch]. unfold on_finished. cbv zeta.
    destruct (Z.eqb_spec status 0) as [-> | Hne].
    + split; reflexivity.
    + split; [discriminate | contradiction].
  - intros Hready. rewrite upload_pressed_ready; [|reflexivity|exact Hready].
    repeat split.
Qed.

(** X15. The file chosen in the dialog is the file that is uploaded: after
    browsing to an existing file, a press of Upload Firmware with a usable
    port submits a job with that file and the selected port and baud rate.
    A cancelled dialog leaves the file field, and every press after it, as
    they were. *)
Theorem browsed_file_is_uploaded (env : Env) (f : string) (w : MainWindow) :
  (fileLocation_lineedit (dispatch (Browsed "") w) = fileLocation_lineedit w /\
   dispatch (UploadPressed env) (dispatch (Browsed "") w) =
     dispatch (Browsed "") (dispatch (UploadPressed env) w)) /\
  (f <> "" ->
   upload_btn_disabled w = false ->
   verify_port env (port w) = true ->
   os_path_exists env f = true ->
   exists j,
     worker_jobs (dispatch (UploadPressed env) (dispatch (Browsed f) w)) =
       worker_jobs w ++ [j] /\
     job_action j = AUxArtemisUploadFirware /\
     job_args j !! "file" = Some (PyStr f) /\
     job_args j !! "port" = Some (port w) /\
     job_args j !! "baud" = Some (baudRate w)).
Proof.
  split.
  - split; [reflexivity|].
    cbn [dispatch]. unfold on_browse_btn_pressed. cbv zeta.
    rewrite bool_decide_eq_true_2 by reflexivity.
    change (upload_btn_disabled (set_statusBar "Select firmware file for upload..." w))
      with (upload_btn_disabled w).
    destruct (upload_btn_disabled w); [reflexivity|].
    unfold on_upload_btn_pressed.
    change (port (set_statusBar "Select firmware file for upload..." w)) with (port w).
    change (fileLocation_lineedit (set_statusBar "Select firmware file for upload..." w))
      with (fileLocation_lineedit w).
    destruct (verify_port env (port w)); cbn [negb].
    + destruct (os_path_exists env (fileLocation_lineedit w)); cbn [negb].
      * reflexivity.
      * change ("The firmware file was not found: " +:+ fileLocation_lineedit w)
          with (String "T" ("he firmware file was not found: "
                            +:+ fileLocation_lineedit w)).
        now rewrite !log_message_plain by reflexivity.
    + now rewrite !log_message_plain by reflexivity.
  - intros Hf Hen Hport Hfile.
    assert (Hb : dispatch (Browsed f) w =
                 set_fileLocation f (set_statusBar "Select firmware file for upload..." w)).
    { cbn [dispatch]. unfold on_browse_btn_pressed. cbv zeta.
      now rewrite bool_decide_eq_false_2. }
    rewrite Hb, upload_pressed_ready.
    + eexists. split; [reflexivity|]. split; [reflexivity|].
      unfold upload_job. cbn [job_args]. now simplify_map_eq.
    + exact Hen.
    + split; [apply verify_port_spec; exact Hport | exact Hfile].
Qed.

(** *** Settings *)

(** What [_load_settings] finds after [_save_settings] wrote the window. *)
Lemma read_saved_settings (w : MainWindow) (store : gmap string PyVal) :
  read_settings (_save_settings w store) =
  mkSettings (match port w with PyNone => None | v => Some v end)
             (Some (fileLocation_lineedit w))
             (match baudRate w with PyNone => None | v => Some v end)
             (Some (PyStr (if artemis w then "True" else "False"))).
Proof.
  unfold read_settings, _save_settings, settings_value,
    SETTING_PORT_NAME, SETTING_FILE_LOCATION, SETTING_BAUD_RATE, SETTING_ARTEMIS.
  cbv zeta. simplify_map_eq.
  destruct (port w), (baudRate w); reflexivity.
Qed.

(** X8. Settings survive a restart: a window built from the settings that
    [_save_settings] wrote shows the same firmware file, the same board
    family and the same baud rate, and the same port when that port is
    among the ports available at the restart (the store returning values
    as they were written). *)
Theorem settings_survive_restart (w : MainWindow) (store : gmap string PyVal)
    (env : Env) :
  reachable w ->
  let w' := MainWindow_init env (read_settings (_save_settings w store)) in
  fileLocation_lineedit w' = fileLocation_lineedit w /\
  selected_board w' = selected_board w /\
  baudRate w' = baudRate w /\
  (forall q, q ∈ availablePorts env -> port w = PyStr (systemLocation q) ->
     port w' = port w).
Proof.
  intros Hw. cbv zeta. rewrite read_saved_settings.
  set (s := mkSettings _ _ _ _).
  split; [|split; [|split]].
  - now rewrite init_file.
  - unfold selected_board. destruct (init_board env s) as [-> _].
    cbn [s setting_artemis]. now destruct (artemis w).
  - destruct (reachable_inv w Hw) as [_ Hrows Hidx _].
    destruct (baudRate_allowed w Hrows Hidx) as (b & Hb & Hallowed).
    unfold baudRate at 1. rewrite init_baud_combobox. cbn [s setting_baud_rate].
    rewrite Hb.
    apply (select_stored_found (mkCombo baud_rows 0) (PyInt b)
             (if b =? 115200 then "115200" else if b =? 460800 then "460800" else "921600")).
    unfold allowed_bauds in Hallowed. cbn [cb_items baud_rows].
    repeat (apply elem_of_cons in Hallowed as [-> | Hallowed]; [cbn; repeat constructor|]).
    inversion Hallowed.
  - intros q Hq Hport. rewrite port_unfold, init_port_combobox.
    cbn [s setting_port_name]. rewrite Hport.
    apply (select_stored_found _ _ (longname (description q) (portName q))).
    rewrite startup_ports_items. apply port_row_elem. exists q. auto.
Qed.

(** *** Dark mode *)




(** X13. The colour of the console text and the variant of the logo agree:
    [__init__] picks the dark pair or the light pair, also when the system
    switches its appearance between the two calls. With an empty cache the
    dark pair is picked only on macOS in dark mode. *)
Theorem console_and_logo_agree (pf1 pf2 : Platform) (cache : option bool) :
  system pf2 = system pf1 ->
  (console_and_logo pf1 pf2 cache =
     ("C0C0C0", "artemis-icon.png", snd (ux_is_darkmode pf1 cache)) \/
   console_and_logo pf1 pf2 cache =
     ("424242", "artemis-icon-blk.png", snd (ux_is_darkmode pf1 cache))) /\
  (cache = None ->
     (fst (fst (console_and_logo pf1 pf2 cache)) = "C0C0C0" <->
      system pf1 = "Darwin" /\ isDark pf1 = true)).
Proof.
  intros Hsys. unfold console_and_logo, ux_is_darkmode. rewrite Hsys. split.
  - destruct cache as [[|]|]; [left; reflexivity | right; reflexivity |].
    repeat case_bool_decide; cbn; try (right; reflexivity).
    destruct (isDark pf1); [left | right]; reflexivity.
  - intros ->. repeat case_bool_decide; cbn.
    + destruct (isDark pf1); cbn; split; try discriminate; auto.
      intros [_ Hdark]. discriminate.
    + split; [discriminate | intros [Hmac _]; congruence].
    + split; [discriminate | intros [Hmac _]; congruence].
    + split; [discriminate | intros [Hmac _]; congruence].
Qed.

(** *** The properties above on concrete windows *)

Lemma update_com_ports_selection_valid_witness :
  verify_port demo_env (port (update_com_ports (availablePorts demo_env) demo_window)) = true /\
  port (update_com_ports [] demo_window) = PyNone.
Proof.
  split.
  - apply (proj1 (update_com_ports_selection_valid demo_env demo_window)). discriminate.
  - apply (proj2 (update_com_ports_selection_valid
                    (mkEnv [] (fun _ => false) (fun f => f)) demo_window)). reflexivity.
Defined.

(** A window whose selected port COM9 is not among [plain_ports]. *)
Definition stale_window : MainWindow := dispatch (PortActivated 2) demo_window.

Lemma update_com_ports_falls_back_to_first_witness :
  port stale_window = PyStr "COM9" /\
  port (update_com_ports plain_ports stale_window) = PyStr "COM3".
Proof.
  split; [reflexivity|].
  apply (update_com_ports_falls_back_to_first
           (mkPort "USB Serial Port" "COM3" "COM3")
           [mkPort "FTDI Serial" "COM4" "COM4"] stale_window).
  - intros p Hp. apply elem_of_cons in Hp as [-> | Hp]; [reflexivity|].
    apply elem_of_cons in Hp as [-> | Hp]; [reflexivity|]. inversion Hp.
  - intros p Hp. apply elem_of_cons in Hp as [-> | Hp]; [discriminate|].
    apply elem_of_cons in Hp as [-> | Hp]; [discriminate|]. inversion Hp.
Defined.

(** A console that shows a progress figure. *)
Definition progress_window : MainWindow := dispatch (WorkerMessage "Upload 10%") demo_window.

Lemma log_message_backspaces_erase_witness :
  messages (log_message (backspaces 3 +:+ "25%") progress_window) = "Upload 25%" /\
  messages (log_message (backspaces 3 +:+ String carriage_return "25%") progress_window)
    = "Upload " +:+ String line_feed "25%".
Proof.
  split.
  - rewrite (proj2 (proj1 (log_message_backspaces_erase 3 "25%" progress_window
                      ltac:(cbn; lia) ltac:(intros r; discriminate) eq_refl)
                   "Upload " "10%" eq_refl eq_refl eq_refl) eq_refl).
    reflexivity.
  - rewrite (proj1 (proj1 (log_message_backspaces_erase 3 (String carriage_return "25%")
                      progress_window
                      ltac:(cbn; lia) ltac:(intros r; discriminate) eq_refl)
                   "Upload " "10%" eq_refl eq_refl eq_refl)).
    reflexivity.
Defined.

Lemma log_message_short_verbatim_witness :
  messages (log_message (backspaces 2) progress_window) =
    "Upload 10%" +:+ String backspace (String backspace "") /\
  messages (log_message (String carriage_return "") progress_window) =
    "Upload 10%" +:+ String line_feed "".
Proof.
  split.
  - rewrite (proj2 (log_message_short_verbatim (backspaces 2) progress_window
                      ltac:(cbn; lia) eq_refl) eq_refl).
    reflexivity.
  - rewrite (proj1 (log_message_short_verbatim (String carriage_return "") progress_window
                      ltac:(cbn; lia) eq_refl)).
    reflexivity.
Defined.



Lemma settings_survive_restart_witness :
  fileLocation_lineedit
    (MainWindow_init demo_env (read_settings (_save_settings ready_window ∅))) = "fw.bin" /\
  port (MainWindow_init demo_env (read_settings (_save_settings ready_window ∅)))
    = PyStr "COM3".
Proof.
  destruct (settings_survive_restart ready_window ∅ demo_env) as (Hfile & _ & _ & Hport).
  - repeat apply reach_event. apply reach_init.
  - split; [exact Hfile|].
    apply (Hport (mkPort "USB Serial Port" "COM3" "COM3"));
      [apply list_elem_of_here | reflexivity].
Defined.

Lemma stored_port_selected_at_startup_witness :
  port (MainWindow_init demo_env (mkSettings (Some (PyStr "COM3")) None None None))
    = PyStr "COM3".
Proof.
  apply (proj1 (stored_port_selected_at_startup demo_env
                  (mkSettings (Some (PyStr "COM3")) None None None))
               (mkPort "USB Serial Port" "COM3" "COM3")).
  - reflexivity.
  - apply list_elem_of_here.
Defined.

Lemma baud_rate_at_startup_witness :
  baudRate (MainWindow_init demo_env (mkSettings None None (Some (PyInt 460800)) None))
    = PyInt 460800 /\
  baudRate (MainWindow_init demo_env (mkSettings None None (Some (PyInt 9600)) None))
    = PyInt 115200.
Proof.
  split.
  - apply (proj1 (proj2 (baud_rate_at_startup demo_env
                           (mkSettings None None (Some (PyInt 460800)) None))) 460800).
    + reflexivity.
    + unfold allowed_bauds. apply list_elem_of_further, list_elem_of_here.
  - apply (proj2 (proj2 (baud_rate_at_startup demo_env
                           (mkSettings None None (Some (PyInt 9600)) None))) 9600).
    + reflexivity.
    + unfold allowed_bauds. intros H.
      repeat (apply elem_of_cons in H as [H | H]; [discriminate|]). inversion H.
Defined.

Lemma board_selection_exclusive_witness :
  apollo3 (dispatch (BoardTriggered Apollo3) ready_window) = true /\
  artemis (dispatch (BoardTriggered Apollo3) ready_window) = false.
Proof.
  assert (H := proj1 board_selection_exclusive
                 (dispatch (BoardTriggered Apollo3) ready_window)
                 ltac:(repeat apply reach_event; apply reach_init)).
  split; [rewrite H|]; reflexivity.
Defined.

Lemma on_finished_unlocks_upload_witness :
  upload_btn_disabled
    (dispatch (UploadPressed demo_env)
       (dispatch (WorkerFinished 1) (dispatch (UploadPressed demo_env) ready_window)))
    = true.
Proof.
  apply (proj2 (proj2 (proj2 (on_finished_unlocks_upload demo_env 1
                                (dispatch (UploadPressed demo_env) ready_window))))).
  split; [|reflexivity].
  exists (mkPort "USB Serial Port" "COM3" "COM3"). split; [apply list_elem_of_here | reflexivity].
Defined.

Lemma browsed_file_is_uploaded_witness :
  exists j,
    worker_jobs (dispatch (UploadPressed demo_env) (dispatch (Browsed "fw.bin") demo_window)) =
      [] ++ [j] /\
    job_action j = AUxArtemisUploadFirware /\
    job_args j !! "file" = Some (PyStr "fw.bin") /\
    job_args j !! "port" = Some (PyStr "COM3") /\
    job_args j !! "baud" = Some (PyInt 115200).
Proof.
  apply (proj2 (browsed_file_is_uploaded demo_env "fw.bin" demo_window));
    [discriminate | reflexivity | reflexivity | reflexivity].
Defined.


Lemma console_and_logo_agree_witness :
  fst (fst (console_and_logo (mkPlatform "Darwin" true) (mkPlatform "Darwin" false) None))
    = "C0C0C0".
Proof.
  apply (proj2 (console_and_logo_agree (mkPlatform "Darwin" true)
                  (mkPlatform "Darwin" false) None eq_refl) eq_refl).
  split; reflexivity.
Defined.

End GuiExtraProofs.
